(** * update-cloudfront-cert.py: attaching a certificate and aliases to a
      CloudFront distribution

    A shallow embedding of [infrastructure/update-cloudfront-cert.py] and the
    properties of its lookup / read / mutate / write-back flow.

    The script is a straight line of Python statements over dynamically typed
    JSON values, three [subprocess.run] calls, one file write, [print] and
    [sys.exit].  The embedding keeps that shape: JSON values are an inductive
    type, Python's dynamic checks ([KeyError], [TypeError], ...) are explicit
    results, and the effects are threaded through a state-and-exception
    monad whose state records what was printed, which commands were started
    and what is on disk. *)

From Stdlib Require Import ZArith List String Ascii Bool Lia.
From Stdlib Require Import Floats.SpecFloat.
From stdpp Require Import base option gmap strings.
Import ListNotations.

Open Scope string_scope.
Open Scope list_scope.
Open Scope Z_scope.

(** ** JSON values, as [json.loads] builds them

    A Python [dict] keeps its keys in insertion order and [json.dump] writes
    them in that order, so an object is an association list; [int] is
    unbounded; [float] is an IEEE double, of which only zero-ness is ever
    observed (truthiness). *)

#[warnings="-register-all"]
Inductive json : Type :=
| JNull
| JBool (b : bool)
| JInt (n : Z)
| JFloat (f : spec_float)
| JString (s : string)
| JArray (items : list json)
| JObject (members : list (string * json)).

Definition dict : Type := list (string * json).

(** [d[k]] on a dict: the value stored under the key, if any. *)
Fixpoint dict_get (k : string) (d : dict) : option json :=
  match d with
  | [] => None
  | (k', v) :: rest => if String.eqb k' k then Some v else dict_get k rest
  end.

(** [d[k] = v] on a dict: an existing key keeps its position and takes the
    new value, a new key goes to the end. *)
Fixpoint dict_set (k : string) (v : json) (d : dict) : dict :=
  match d with
  | [] => [(k, v)]
  | (k', v') :: rest =>
      if String.eqb k' k then (k', v) :: rest else (k', v') :: dict_set k v rest
  end.

(** The truth value Python gives a JSON value in [if not x]. *)
Definition truthy (v : json) : bool :=
  match v with
  | JNull => false
  | JBool b => b
  | JInt n => negb (n =? 0)
  | JFloat (S754_zero _) => false
  | JFloat _ => true
  | JString s => negb (String.eqb s "")
  | JArray items => match items with [] => false | _ => true end
  | JObject members => match members with [] => false | _ => true end
  end.

(** [v == s] for a [str] constant [s]: only an equal string compares equal. *)
Definition eq_str (v : json) (s : string) : bool :=
  match v with
  | JString s' => String.eqb s' s
  | _ => false
  end.

(** ** Exceptions *)

(** What the aws command left on its standard output, as far as the script
    looks at it: the script passes the text to [json.loads] and to nothing
    else, so the text is represented by the value it decodes to, or by
    itself when it is not JSON. *)
Inductive captured : Type :=
| Decodes (v : json)
| Undecodable (raw : string).

Inductive exn : Type :=
| SystemExit (code : Z)
| CalledProcessError (returncode : Z) (cmd : list string)
                     (output : captured) (stderr : string)
| OSError (strerror : string)
| JSONDecodeError (doc : string)
| KeyError (key : string)
| TypeError (culprit : json)
| ValueError (culprit : json)
| AttributeError (culprit : json) (attr : string)
| UnicodeDecodeError (reason : string).

(** [except Exception] catches everything the script can raise except
    [SystemExit], which derives from [BaseException] only. *)
Definition is_Exception (e : exn) : bool :=
  match e with
  | SystemExit _ => false
  | _ => true
  end.

Inductive result (A : Type) : Type :=
| Ok (a : A)
| Raise (e : exn).
Arguments Ok {A} a.
Arguments Raise {A} e.

Definition and_then {A B} (r : result A) (f : A -> result B) : result B :=
  match r with
  | Ok a => f a
  | Raise e => Raise e
  end.

(** ** Python's operations on JSON values *)

(** [v[k]] with a [str] key: defined on dicts, [KeyError] when the key is
    missing, [TypeError] on every other type (lists and strings want integer
    indices, the rest is not subscriptable). *)
Definition subscript (v : json) (k : string) : result json :=
  match v with
  | JObject d =>
      match dict_get k d with
      | Some x => Ok x
      | None => Raise (KeyError k)
      end
  | _ => Raise (TypeError v)
  end.

(** [v[k1][k2]...], evaluated left to right. *)
Fixpoint path (v : json) (ks : list string) : result json :=
  match ks with
  | [] => Ok v
  | k :: ks' => and_then (subscript v k) (fun x => path x ks')
  end.

(** [v[k] = x] with a [str] key: only a dict accepts it. *)
Definition setitem (v : json) (k : string) (x : json) : result json :=
  match v with
  | JObject d => Ok (JObject (dict_set k x d))
  | _ => Raise (TypeError v)
  end.

(** The elements a [for] loop draws from a value: the items of a list, the
    keys of a dict, the characters of a string; anything else is not
    iterable. *)
Definition iterate (v : json) : result (list json) :=
  match v with
  | JArray items => Ok items
  | JObject d => Ok (map (fun kv => JString (fst kv)) d)
  | JString s => Ok (map (fun c => JString (String c "")) (list_ascii_of_string s))
  | _ => Raise (TypeError v)
  end.

(** [s.split('/')[-1]]: what follows the last slash, the whole string if
    there is none. *)
Fixpoint last_segment (s : string) : string :=
  match s with
  | EmptyString => EmptyString
  | String c rest =>
      if existsb (Ascii.eqb "/") (list_ascii_of_string rest)
      then last_segment rest
      else if Ascii.eqb c "/" then rest else String c rest
  end.

Definition split_last (v : json) : result string :=
  match v with
  | JString s => Ok (last_segment s)
  | _ => Raise (AttributeError v "split")
  end.

(** What [text=True] makes of the line ends of a captured stream: CR LF
    and a CR on its own both become LF, as by replacing first every CR LF
    and then every CR that is left. *)
Fixpoint universal_newlines (s : string) : string :=
  match s with
  | EmptyString => EmptyString
  | String c rest =>
      if Ascii.eqb c "013"
      then match rest with
           | String c' rest' =>
               if Ascii.eqb c' "010"
               then String "010" (universal_newlines rest')
               else String "010" (universal_newlines rest)
           | EmptyString => String "010" EmptyString
           end
      else String c (universal_newlines rest)
  end.

(** ** Configuration *)

Definition DISTRIBUTION_COMMENT : string := "sharespace frontend distribution".
Definition DOMAIN_NAMES : list string :=
  ["itsonlycastlesburning.com"; "*.itsonlycastlesburning.com"].

(** ** The mutation step (source lines 66-78)

    The two assignments refer to the globals [CERT_ARN] and [DOMAIN_NAMES];
    they are arguments here so that the step can be stated for every
    certificate reference and every domain list. *)

Definition viewer_certificate (CERT_ARN : string) : json :=
  JObject [ ("ACMCertificateArn", JString CERT_ARN);
            ("SSLSupportMethod", JString "sni-only");
            ("MinimumProtocolVersion", JString "TLSv1.2_2021");
            ("CertificateSource", JString "acm") ].

Definition aliases (DOMAIN_NAMES : list string) : json :=
  JObject [ ("Quantity", JInt (Z.of_nat (length DOMAIN_NAMES)));
            ("Items", JArray (map JString DOMAIN_NAMES)) ].

Definition update_config (CERT_ARN : string) (DOMAIN_NAMES : list string)
    (config : json) : result json :=
  and_then (setitem config "ViewerCertificate" (viewer_certificate CERT_ARN))
    (fun config => setitem config "Aliases" (aliases DOMAIN_NAMES)).

(** The members of a configuration that the step is not about, in order. *)
Definition unrelated (d : dict) : dict :=
  List.filter (fun kv => negb (String.eqb (fst kv) "ViewerCertificate"
                          || String.eqb (fst kv) "Aliases")) d.

(** ** What the script prints

    A printed line is a sequence of pieces.  [Text s] is the characters of
    [s] as they are; [Repr v] is Python's rendering of a value that is not a
    string (a number, a list, a dict, [None]) or, for [KeyError], of the
    quoted key; [Signal n] names signal [n]; [Diag e] is the message the
    interpreter or the operating system attaches to [e]. *)

Inductive piece : Type :=
| Text (s : string)
| Repr (v : json)
| Signal (n : Z)
| Diag (e : exn).

Definition line : Type := list piece.

Definition nl : string := String "010" "".

(** [{v}] in an f-string: [str(v)]. *)
Definition fmt (v : json) : piece :=
  match v with
  | JString s => Text s
  | _ => Repr v
  end.

(** [{e}] in an f-string: [str(e)].  [CalledProcessError.__str__] names the
    command and the exit status (or the signal that killed the command) and
    nothing else; [KeyError] shows the quoted key. *)
Definition str_exn (e : exn) : line :=
  match e with
  | CalledProcessError returncode cmd _ _ =>
      if returncode <? 0
      then [Text "Command '"; Repr (JArray (map JString cmd));
            Text "' died with "; Signal (- returncode); Text "."]
      else [Text "Command '"; Repr (JArray (map JString cmd));
            Text "' returned non-zero exit status "; Repr (JInt returncode);
            Text "."]
  | KeyError key => [Repr (JString key)]
  | _ => [Diag e]
  end.

(** ** The world outside the script *)

(** Files hold what [json.dump] wrote for a value, or anything else. *)
Inductive file_data : Type :=
| JsonDump (v : json)
| Bytes (raw : string).

(** A started command: its argument vector and the disk it could read. *)
Record call : Type := Call {
  argv : list string;
  seen : gmap string file_data
}.

(** How a command ends, as [subprocess.run(..., capture_output=True,
    text=True)] sees it: it exits with a status, and what it wrote on its
    standard output and its standard error is text in the encoding of the
    locale; or it exits and what it wrote is not text in that encoding
    ([text=True] makes [subprocess.run] decode both streams before it looks
    at the status, and the decoding raises); or it could not be started at
    all (no aws executable, no permission).  [stderr] holds the characters
    as the command wrote them. *)
Inductive process : Type :=
| Exited (returncode : Z) (stdout : captured) (stderr : string)
| Garbled (reason : string)
| Unlaunched (strerror : string).

(** The environment of one run: the process environment, the answer of the
    operating system to every command (which may depend on the commands
    started before and on the disk), whether a path can be opened for
    writing (the error otherwise), and the disk at the start.  The disk is
    the files as the script writes them: a command reads it and answers,
    what a command may write itself is not recorded. *)
Record World : Type := {
  environ : gmap string string;
  spawn : list call -> list string -> gmap string file_data -> process;
  open_w : string -> option string;
  disk0 : gmap string file_data
}.

(** ** State and exceptions *)

Record state : Type := State {
  printed : list line;
  calls : list call;
  disk : gmap string file_data
}.

Definition M (A : Type) : Type := state -> result A * state.

Definition ret {A} (a : A) : M A := fun st => (Ok a, st).

Definition bind {A B} (m : M A) (f : A -> M B) : M B :=
  fun st =>
    match m st with
    | (Ok a, st') => f a st'
    | (Raise e, st') => (Raise e, st')
    end.

Definition raise {A} (e : exn) : M A := fun st => (Raise e, st).

Definition lift {A} (r : result A) : M A := fun st => (r, st).

Declare Scope py_scope.
Delimit Scope py_scope with py.
Notation "x <- m ;; k" := (bind m (fun x => k))
  (at level 100, m at next level, right associativity) : py_scope.
Notation "m ;; k" := (bind m (fun _ => k))
  (at level 100, right associativity) : py_scope.
Open Scope py_scope.

Definition print (l : line) : M unit :=
  fun st => (Ok tt, State (printed st ++ [l]) (calls st) (disk st)).

Definition sys_exit {A} (code : Z) : M A := raise (SystemExit code).

(** [try: body except Exception as e: handler e]. *)
Definition try_except {A} (body : M A) (handler : exn -> M A) : M A :=
  fun st =>
    match body st with
    | (Ok a, st') => (Ok a, st')
    | (Raise e, st') =>
        if is_Exception e then handler e st' else (Raise e, st')
    end.

(** [for x in xs: body x]. *)
Fixpoint for_each {A} (xs : list A) (body : A -> M unit) : M unit :=
  match xs with
  | [] => ret tt
  | x :: xs' => body x ;; for_each xs' body
  end.

(** [json.loads(result.stdout)]. *)
Definition json_loads (out : captured) : M json :=
  match out with
  | Decodes v => ret v
  | Undecodable raw => raise (JSONDecodeError raw)
  end.

(** The arguments of a command must be strings without a NUL character;
    [subprocess.run] raises before it starts anything otherwise. *)
Definition has_nul (s : string) : bool :=
  existsb (Ascii.eqb "000") (list_ascii_of_string s).

Fixpoint as_argv (args : list json) : result (list string) :=
  match args with
  | [] => Ok []
  | JString s :: rest =>
      if has_nul s then Raise (ValueError (JString s))
      else and_then (as_argv rest) (fun l => Ok (s :: l))
  | v :: _ => Raise (TypeError v)
  end.

(** ** The script *)

Section Script.

Variable w : World.

(** [subprocess.run(args, capture_output=True, text=True, check=True)]: the
    command is started on the disk as it is, its output is captured and
    decoded as text, with the line ends translated, and a non-zero exit
    status becomes [CalledProcessError], which carries the decoded streams;
    output that cannot be decoded raises [UnicodeDecodeError] whatever the
    exit status, and what does not start raises [OSError]. *)
Definition subprocess_run (args : list json) : M captured :=
  fun st =>
    match as_argv args with
    | Raise e => (Raise e, st)
    | Ok cmd =>
        let st' := State (printed st) (calls st ++ [Call cmd (disk st)]) (disk st) in
        match spawn w (calls st) cmd (disk st) with
        | Unlaunched strerror => (Raise (OSError strerror), st')
        | Garbled reason => (Raise (UnicodeDecodeError reason), st')
        | Exited returncode stdout stderr =>
            if returncode =? 0 then (Ok stdout, st')
            else (Raise (CalledProcessError returncode cmd stdout
                          (universal_newlines stderr)), st')
        end
    end.

(** [with open(name, 'w') as f: json.dump(v, f)], for a name that is not a
    link and a dump that completes once the file is open: the disk maps
    names to contents, so what [open] does to the target of a link, and the
    empty file that [open] leaves when the dump fails after it, are not
    in it. *)
Definition dump_to (name : string) (v : json) : M unit :=
  fun st =>
    match open_w w name with
    | Some strerror => (Raise (OSError strerror), st)
    | None =>
        (Ok tt, State (printed st) (calls st) (<[name := JsonDump v]> (disk st)))
    end.

(** The loop of lines 34-38: the identifier of the first distribution whose
    comment is the target, [None] when the loop runs out. *)
Fixpoint scan (items : list json) : result json :=
  match items with
  | [] => Ok JNull
  | dist :: rest =>
      and_then (subscript dist "Comment") (fun comment =>
        if eq_str comment DISTRIBUTION_COMMENT
        then subscript dist "Id"
        else scan rest)
  end.

Definition list_argv : list string :=
  ["aws"; "cloudfront"; "list-distributions"; "--output"; "json"].

(** Lines 24-47: get distribution ID. *)
Definition get_distribution_id : M json :=
  try_except
    (result <- subprocess_run (map JString list_argv) ;;
     distributions <- json_loads result ;;
     Items <- lift (path distributions ["DistributionList"; "Items"]) ;;
     dists <- lift (iterate Items) ;;
     dist_id <- lift (scan dists) ;;
     if negb (truthy dist_id)
     then print [Text "❌ Error: Could not find distribution with comment '";
                 Text DISTRIBUTION_COMMENT; Text "'"] ;;
          sys_exit 1
     else print [Text "✅ Found distribution ID: "; fmt dist_id] ;;
          ret dist_id)
    (fun e =>
       print (Text "❌ Error listing distributions: " :: str_exn e) ;;
       sys_exit 1).

Definition get_args (dist_id : json) : list json :=
  [JString "aws"; JString "cloudfront"; JString "get-distribution-config";
   JString "--id"; dist_id; JString "--output"; JString "json"].

(** Lines 49-64: get current distribution config. *)
Definition get_distribution_config (dist_id : json) : M (json * json) :=
  try_except
    (result <- subprocess_run (get_args dist_id) ;;
     dist_response <- json_loads result ;;
     config <- lift (subscript dist_response "DistributionConfig") ;;
     etag <- lift (subscript dist_response "ETag") ;;
     print [Text "✅ Retrieved current distribution config (ETag: "; fmt etag;
            Text ")"] ;;
     ret (config, etag))
    (fun e =>
       print (Text "❌ Error getting distribution config: " :: str_exn e) ;;
       sys_exit 1).

Definition tmp_path : string := "/tmp/dist-config-updated.json".

Definition update_args (dist_id etag : json) : list json :=
  [JString "aws"; JString "cloudfront"; JString "update-distribution";
   JString "--id"; dist_id;
   JString "--distribution-config"; JString ("file://" +:+ tmp_path);
   JString "--if-match"; etag;
   JString "--output"; JString "json"].

(** The argument vectors of the fetch and of the update, once the
    identifier and the entity tag are known to be strings. *)
Definition get_argv (dist_id : string) : list string :=
  ["aws"; "cloudfront"; "get-distribution-config"; "--id"; dist_id;
   "--output"; "json"].

Definition update_argv (dist_id etag : string) : list string :=
  ["aws"; "cloudfront"; "update-distribution"; "--id"; dist_id;
   "--distribution-config"; "file:///tmp/dist-config-updated.json";
   "--if-match"; etag; "--output"; "json"].

(** A call is the write-back when its third argument says so. *)
Definition is_update (c : call) : Prop :=
  nth 2 (argv c) "" = "update-distribution".

(** Lines 101-115: what is reported once the update went through. *)
Definition report (updated : json) : M unit :=
  print [Text "✅ Distribution updated successfully!"] ;;
  print [Text (nl +:+ "📊 Distribution details:")] ;;
  v <- lift (path updated ["Distribution"; "Id"]) ;;
  print [Text "   ID: "; fmt v] ;;
  v <- lift (path updated ["Distribution"; "DomainName"]) ;;
  print [Text "   Domain: "; fmt v] ;;
  v <- lift (path updated ["Distribution"; "DistributionConfig"; "Aliases";
                           "Items"]) ;;
  print [Text "   Aliases: "; fmt v] ;;
  v <- lift (path updated ["Distribution"; "DistributionConfig";
                           "ViewerCertificate"; "ACMCertificateArn"]) ;;
  s <- lift (split_last v) ;;
  print [Text "   Certificate: "; Text s] ;;
  v <- lift (path updated ["Distribution"; "Status"]) ;;
  print [Text (nl +:+ "⏳ Status: "); fmt v] ;;
  print [Text (nl +:+ "📝 Next steps:")] ;;
  print [Text "   1. Add CNAME records in your DNS provider:"] ;;
  for_each DOMAIN_NAMES (fun domain =>
    v <- lift (path updated ["Distribution"; "DomainName"]) ;;
    print [Text "      "; Text domain; Text " → "; fmt v]) ;;
  print [Text "   2. Wait for DNS propagation (5-15 minutes)"] ;;
  print [Text "   3. Distribution will complete deployment (may take 10-15 minutes)"].

(** Lines 88-122: update distribution.  The first handler is for
    [subprocess.CalledProcessError], the second for every other
    [Exception]. *)
Definition update_distribution (dist_id etag : json) : M unit :=
  try_except
    (print [Text (nl +:+ "🚀 Updating CloudFront distribution...")] ;;
     result <- subprocess_run (update_args dist_id etag) ;;
     updated <- json_loads result ;;
     report updated)
    (fun e =>
       match e with
       | CalledProcessError _ _ _ stderr =>
           print [Text "❌ Error updating distribution: "; Text stderr] ;;
           sys_exit 1
       | _ =>
           print (Text "❌ Error: " :: str_exn e) ;;
           sys_exit 1
       end).

(** Lines 20-22. *)
Definition announce (CERT_ARN : string) : M unit :=
  print [Text "🔧 Updating CloudFront distribution with certificate..."] ;;
  print [Text "   Certificate ARN: "; Text CERT_ARN] ;;
  print [Text "   Domain names: "; Text (String.concat ", " DOMAIN_NAMES)].

(** Lines 66-86: the two assignments, the three progress lines and the
    temporary file. *)
Definition mutate_and_save (CERT_ARN : string) (config : json) : M json :=
  config <- lift (update_config CERT_ARN DOMAIN_NAMES config) ;;
  print [Text "✅ Updated configuration:"] ;;
  print [Text "   ViewerCertificate: ACM with SNI-only"] ;;
  print [Text "   Aliases: "; Repr (JArray (map JString DOMAIN_NAMES))] ;;
  dump_to tmp_path config ;;
  ret config.

(** Everything after the guard of line 16. *)
Definition proceed (CERT_ARN : string) : M unit :=
  announce CERT_ARN ;;
  dist_id <- get_distribution_id ;;
  fetched <- get_distribution_config dist_id ;;
  config <- mutate_and_save CERT_ARN (fst fetched) ;;
  update_distribution dist_id (snd fetched).

(** The whole module body.  [os.environ.get] gives [None] for a variable
    that is not set, and [not CERT_ARN] holds for [None] and for the empty
    string. *)
Definition main : M unit :=
  let CERT_ARN := environ w !! "ACM_CERTIFICATE_ARN" in
  match CERT_ARN with
  | Some (String c s) => proceed (String c s)
  | _ =>
      print [Text "❌ Error: ACM_CERTIFICATE_ARN environment variable not set"] ;;
      sys_exit 1
  end.

Definition start : state := State [] [] (disk0 w).

(** The exit status of the interpreter: 0 when the module body runs to its
    end, the argument of [sys.exit], 1 with a traceback for an exception
    nobody caught. *)
Definition exit_code (r : result unit) : Z :=
  match r with
  | Ok _ => 0
  | Raise (SystemExit code) => code
  | Raise _ => 1
  end.

Definition run : result unit * state := main start.

End Script.

(** ** Notions used in the statements *)

(** The state in which the resolver starts. *)
Definition announced (w : World) (CERT_ARN : string) : state :=
  snd (announce CERT_ARN (start w)).

(** How far a run gets.  Either the write-back stage is never entered, and
    then the run ends with exit status 1 having started at most the listing
    and the fetch; or the run is the write-back stage, entered with the
    identifier chosen by the resolver, the configuration and the entity tag
    returned by the fetch, and the mutated configuration in the temporary
    file. *)
Inductive progress (w : World) : Prop :=
| Stopped (prefix : list call)
    (Hcode : exit_code (fst (run w)) = 1)
    (Hcalls : calls (snd (run w)) = prefix)
    (Hprefix : prefix = [] \/ prefix = [Call list_argv (disk0 w)] \/
               exists i, prefix = [Call list_argv (disk0 w);
                                   Call (get_argv i) (disk0 w)])
| Submitting (CERT_ARN i : string) (config etag config' : json)
    (st1 st2 st3 : state)
    (Henv : environ w !! "ACM_CERTIFICATE_ARN" = Some CERT_ARN)
    (Hid : get_distribution_id w (announced w CERT_ARN) = (Ok (JString i), st1))
    (Hget : get_distribution_config w (JString i) st1 = (Ok (config, etag), st2))
    (resp : json) (stderr : string)
    (Hresp : spawn w [Call list_argv (disk0 w)] (get_argv i) (disk0 w)
             = Exited 0 (Decodes resp) stderr)
    (Hconfig : subscript resp "DistributionConfig" = Ok config)
    (Hetag : subscript resp "ETag" = Ok etag)
    (Hmut : update_config CERT_ARN DOMAIN_NAMES config = Ok config')
    (Hsave : mutate_and_save w CERT_ARN config st2 = (Ok config', st3))
    (Hcalls : calls st3 = [Call list_argv (disk0 w); Call (get_argv i) (disk0 w)])
    (Hdisk : disk st3 = <[tmp_path := JsonDump config']> (disk0 w))
    (Hrun : run w = update_distribution w (JString i) etag st3).

(** Everything that is known when an update command appears in the trace
    of a run. *)
Inductive submitted (w : World) (c : call) : Prop :=
| Submitted (CERT_ARN i t : string) (resp config config' : json)
    (stderr : string) (st1 st2 st3 : state)
    (Henv : environ w !! "ACM_CERTIFICATE_ARN" = Some CERT_ARN)
    (Hid : get_distribution_id w (announced w CERT_ARN) = (Ok (JString i), st1))
    (Hget : get_distribution_config w (JString i) st1
            = (Ok (config, JString t), st2))
    (Hresp : spawn w [Call list_argv (disk0 w)] (get_argv i) (disk0 w)
             = Exited 0 (Decodes resp) stderr)
    (Hconfig : subscript resp "DistributionConfig" = Ok config)
    (Hetag : subscript resp "ETag" = Ok (JString t))
    (Hmut : update_config CERT_ARN DOMAIN_NAMES config = Ok config')
    (Hcalls3 : calls st3 = [Call list_argv (disk0 w); Call (get_argv i) (disk0 w)])
    (Hdisk3 : disk st3 = <[tmp_path := JsonDump config']> (disk0 w))
    (Hargs : as_argv (update_args (JString i) (JString t)) = Ok (update_argv i t))
    (Hrun : run w = update_distribution w (JString i) (JString t) st3)
    (Hc : c = Call (update_argv i t) (<[tmp_path := JsonDump config']> (disk0 w)))
    (Hcalls : calls (snd (run w)) = calls st3 ++ [c])
    (Hdisk : disk (snd (run w)) = <[tmp_path := JsonDump config']> (disk0 w)).

(** The resolver in the words of the specification: the first entry, in the
    order of the listing, whose comment is the target comment. *)
Definition comment_matches (dist : json) : bool :=
  match subscript dist "Comment" with
  | Ok comment => eq_str comment DISTRIBUTION_COMMENT
  | Raise _ => false
  end.

Definition first_match (items : list json) : option json :=
  List.find comment_matches items.

(** A distribution summary: an object with a comment and an identifier. *)
Definition is_summary (dist : json) : bool :=
  match subscript dist "Comment", subscript dist "Id" with
  | Ok _, Ok _ => true
  | _, _ => false
  end.

Definition not_found_line : line :=
  [Text "❌ Error: Could not find distribution with comment '";
   Text "sharespace frontend distribution"; Text "'"].

(** The run stops at the resolver with the not-found line, exit status 1 and
    the listing as its only command. *)
Definition stops_not_found (w : World) : Prop :=
  fst (run w) = Raise (SystemExit 1) /\
  exit_code (fst (run w)) = 1 /\
  calls (snd (run w)) = [Call list_argv (disk0 w)] /\
  List.last (printed (snd (run w))) [] = not_found_line.

(** ** Scenarios *)

(** A world in which the aws command answers by its sub-command only, every
    file can be opened and the disk starts empty. *)
Definition answering (listing fetch update : process)
    (prev : list call) (cmd : list string) (files : gmap string file_data)
    : process :=
  let verb := nth 2 cmd "" in
  if String.eqb verb "list-distributions" then listing
  else if String.eqb verb "get-distribution-config" then fetch
  else update.

Definition world_of (env : gmap string string)
    (listing fetch update : process) : World :=
  {| environ := env;
     spawn := answering listing fetch update;
     open_w := fun _ => None;
     disk0 := ∅ |}.

Definition example_arn : string :=
  "arn:aws:acm:us-east-1:123456789012:certificate/abc".

Definition with_arn : gmap string string :=
  {[ "ACM_CERTIFICATE_ARN" := example_arn ]}.

Definition summary (id comment : string) : json :=
  JObject [ ("Id", JString id); ("Comment", JString comment);
            ("DomainName", JString "d111111abcdef8.cloudfront.net") ].

Definition listing_of (items : list json) : json :=
  JObject [ ("DistributionList",
             JObject [ ("Quantity", JInt (Z.of_nat (length items)));
                       ("Items", JArray items) ]) ].

Definition old_config : json :=
  JObject [ ("CallerReference", JString "sharespace");
            ("Aliases", JObject [ ("Quantity", JInt 1);
                                  ("Items", JArray [JString "old.example.com"]) ]);
            ("Comment", JString DISTRIBUTION_COMMENT);
            ("ViewerCertificate",
             JObject [ ("CloudFrontDefaultCertificate", JBool true) ]);
            ("Enabled", JBool true) ].

Definition fetched : json :=
  JObject [ ("ETag", JString "E_OLD"); ("DistributionConfig", old_config) ].

Definition new_config : json :=
  JObject [ ("CallerReference", JString "sharespace");
            ("Aliases", aliases DOMAIN_NAMES);
            ("Comment", JString DISTRIBUTION_COMMENT);
            ("ViewerCertificate", viewer_certificate example_arn);
            ("Enabled", JBool true) ].

Definition updated : json :=
  JObject [ ("ETag", JString "E_NEW");
            ("Distribution",
             JObject [ ("Id", JString "E123");
                       ("Status", JString "InProgress");
                       ("DomainName", JString "d111111abcdef8.cloudfront.net");
                       ("DistributionConfig", new_config) ]) ].

Definition ok (v : json) : process := Exited 0 (Decodes v) "".

(** The scenario of the specification: one distribution with the target
    comment and identifier E123, a configuration with one old alias and
    entity tag E_OLD, an update that goes through. *)
Definition w_scenario : World :=
  world_of with_arn
    (ok (listing_of [summary "E123" DISTRIBUTION_COMMENT]))
    (ok fetched) (ok updated).

(** Two distributions, the second one with the target comment. *)
Definition w_second : World :=
  world_of with_arn
    (ok (listing_of [summary "E000" "another distribution";
                     summary "E123" DISTRIBUTION_COMMENT]))
    (ok fetched) (ok updated).

(** The distribution with the target comment has an empty identifier. *)
Definition w_blank_id : World :=
  world_of with_arn
    (ok (listing_of [summary "" DISTRIBUTION_COMMENT]))
    (ok fetched) (ok updated).

(** The listing is refused by the service. *)
Definition denied : string :=
  "An error occurred (AccessDenied) when calling the ListDistributions operation: User is not authorized to perform: cloudfront:ListDistributions".

Definition w_listing_denied : World :=
  world_of with_arn (Exited 254 (Undecodable "") denied)
    (ok fetched) (ok updated).

(** The update goes through and answers with a document that has no
    ['Distribution'] member. *)
Definition w_unreported : World :=
  world_of with_arn
    (ok (listing_of [summary "E123" DISTRIBUTION_COMMENT]))
    (ok fetched) (ok (JObject [ ("ETag", JString "E_NEW") ])).

(** The variable is not set; the variable is set to the empty string. *)
Definition w_unset : World :=
  world_of ∅ (ok (listing_of [])) (ok fetched) (ok updated).

Definition w_empty : World :=
  world_of {[ "ACM_CERTIFICATE_ARN" := "" ]}
    (ok (listing_of [])) (ok fetched) (ok updated).

(** The fetch is refused by the service; the update is rejected because
    the entity tag is stale. *)
Definition w_fetch_denied : World :=
  world_of with_arn
    (ok (listing_of [summary "E123" DISTRIBUTION_COMMENT]))
    (Exited 254 (Undecodable "") denied) (ok updated).

Definition stale : string :=
  "An error occurred (PreconditionFailed) when calling the UpdateDistribution operation: The request failed because it didn't meet the preconditions in one or more request-header fields.".

Definition w_stale : World :=
  world_of with_arn
    (ok (listing_of [summary "E123" DISTRIBUTION_COMMENT]))
    (ok fetched) (Exited 254 (Undecodable "") stale).

Definition scenario_update : call :=
  Call (update_argv "E123" "E_OLD") (<[tmp_path := JsonDump new_config]> ∅).

(** ** What the stages read from the output of a command *)

(** Lines 32-38: the value the loop leaves in [dist_id], read from the
    output of the listing. *)
Definition listed_id (out : captured) : result json :=
  match out with
  | Undecodable raw => Raise (JSONDecodeError raw)
  | Decodes distributions =>
      and_then (path distributions ["DistributionList"; "Items"]) (fun Items =>
      and_then (iterate Items) scan)
  end.

(** Lines 57-59: the configuration and the entity tag, read from the output
    of the fetch. *)
Definition fetched_parts (out : captured) : result (json * json) :=
  match out with
  | Undecodable raw => Raise (JSONDecodeError raw)
  | Decodes dist_response =>
      and_then (subscript dist_response "DistributionConfig") (fun config =>
      and_then (subscript dist_response "ETag") (fun etag =>
      Ok (config, etag)))
  end.

(** The three lines of lines 80-82. *)
Definition updated_lines : list line :=
  [ [Text "✅ Updated configuration:"];
    [Text "   ViewerCertificate: ACM with SNI-only"];
    [Text "   Aliases: "; Repr (JArray (map JString DOMAIN_NAMES))] ].

(** A state with more lines printed, one more command started, another
    disk. *)
Definition says (st : state) (lines : list line) : state :=
  State (printed st ++ lines) (calls st) (disk st).

Definition started (st : state) (cmd : list string) : state :=
  State (printed st) (calls st ++ [Call cmd (disk st)]) (disk st).

(** Lines 104-109: the five values the report reads from the answer of the
    update, in the order in which it reads them. *)
Definition report_fields (updated : json)
    : result (json * json * json * string * json) :=
  and_then (path updated ["Distribution"; "Id"]) (fun id =>
  and_then (path updated ["Distribution"; "DomainName"]) (fun domain =>
  and_then (path updated ["Distribution"; "DistributionConfig"; "Aliases";
                          "Items"]) (fun items =>
  and_then (path updated ["Distribution"; "DistributionConfig";
                          "ViewerCertificate"; "ACMCertificateArn"]) (fun arn =>
  and_then (split_last arn) (fun certificate =>
  and_then (path updated ["Distribution"; "Status"]) (fun status =>
  Ok (id, domain, items, certificate, status))))))).

(** The exception that lines 101-109 raise on the output of an update
    that exited with status 0, if any: the one of [json.loads] when the
    output is not JSON, the one of the first of the five values that cannot
    be read otherwise. *)
Definition report_error (out : captured) : option exn :=
  match out with
  | Undecodable raw => Some (JSONDecodeError raw)
  | Decodes updated =>
      match report_fields updated with
      | Ok _ => None
      | Raise e => Some e
      end
  end.

(** The exceptions of a subscript or of a method call that is not there. *)
Definition is_lookup_error (e : exn) : bool :=
  match e with
  | KeyError _ | TypeError _ | AttributeError _ _ => true
  | _ => false
  end.

(** Lines 101-115, as printed for these five values. *)
Definition report_lines (id domain items : json) (certificate : string)
    (status : json) : list line :=
  [ [Text "✅ Distribution updated successfully!"];
    [Text (nl +:+ "📊 Distribution details:")];
    [Text "   ID: "; fmt id];
    [Text "   Domain: "; fmt domain];
    [Text "   Aliases: "; fmt items];
    [Text "   Certificate: "; Text certificate];
    [Text (nl +:+ "⏳ Status: "); fmt status];
    [Text (nl +:+ "📝 Next steps:")];
    [Text "   1. Add CNAME records in your DNS provider:"] ] ++
  map (fun name => [Text "      "; Text name; Text " → "; fmt domain])
      DOMAIN_NAMES ++
  [ [Text "   2. Wait for DNS propagation (5-15 minutes)"];
    [Text "   3. Distribution will complete deployment (may take 10-15 minutes)"] ].

Definition updating_line : line :=
  [Text (nl +:+ "🚀 Updating CloudFront distribution...")].

Definition retrieved_line (etag : json) : line :=
  [Text "✅ Retrieved current distribution config (ETag: "; fmt etag; Text ")"].

Definition found_line (dist_id : json) : line :=
  [Text "✅ Found distribution ID: "; fmt dist_id].

(** Lines 20-22, as printed. *)
Definition announce_lines (CERT_ARN : string) : list line :=
  [ [Text "🔧 Updating CloudFront distribution with certificate..."];
    [Text "   Certificate ARN: "; Text CERT_ARN];
    [Text "   Domain names: "; Text (String.concat ", " DOMAIN_NAMES)] ].

(** The key an assignment [d[k] = v] adds to a dict: none when the dict has
    it already. *)
Definition missing (k : string) (d : dict) : list string :=
  match dict_get k d with
  | Some _ => []
  | None => [k]
  end.

Definition has_slash (s : string) : bool :=
  existsb (Ascii.eqb "/") (list_ascii_of_string s).

(** An entry of the listing that is passed over: it has a comment, and the
    comment is not the target. *)
Definition passed_over (dist : json) : bool :=
  match subscript dist "Comment" with
  | Ok comment => negb (eq_str comment DISTRIBUTION_COMMENT)
  | Raise _ => false
  end.

(** ** More scenarios *)

(** An account without distributions: the listing has no ['Items']. *)
Definition w_no_items : World :=
  world_of with_arn
    (ok (JObject [ ("DistributionList", JObject [ ("Quantity", JInt 0) ]) ]))
    (ok fetched) (ok updated).

(** The identifier of the target entry is a number. *)
Definition w_numeric_id : World :=
  world_of with_arn
    (ok (listing_of [ JObject [ ("Id", JInt 7);
                                ("Comment", JString DISTRIBUTION_COMMENT) ] ]))
    (ok fetched) (ok updated).

(** The answer of the fetch has no entity tag; its configuration is a
    list; its entity tag is a number. *)
Definition w_no_etag : World :=
  world_of with_arn
    (ok (listing_of [summary "E123" DISTRIBUTION_COMMENT]))
    (ok (JObject [ ("DistributionConfig", old_config) ])) (ok updated).

Definition w_config_list : World :=
  world_of with_arn
    (ok (listing_of [summary "E123" DISTRIBUTION_COMMENT]))
    (ok (JObject [ ("ETag", JString "E_OLD");
                   ("DistributionConfig", JArray []) ]))
    (ok updated).

Definition w_numeric_etag : World :=
  world_of with_arn
    (ok (listing_of [summary "E123" DISTRIBUTION_COMMENT]))
    (ok (JObject [ ("ETag", JInt 5); ("DistributionConfig", old_config) ]))
    (ok updated).

(** No file can be opened for writing. *)
Definition w_read_only : World :=
  {| environ := with_arn;
     spawn := answering
                (ok (listing_of [summary "E123" DISTRIBUTION_COMMENT]))
                (ok fetched) (ok updated);
     open_w := fun _ => Some "Read-only file system";
     disk0 := ∅ |}.

(** The update goes through and answers with a document whose certificate
    reference is null. *)
Definition null_certificate : json :=
  JObject [ ("ETag", JString "E_NEW");
            ("Distribution",
             JObject [ ("Id", JString "E123");
                       ("Status", JString "InProgress");
                       ("DomainName", JString "d111111abcdef8.cloudfront.net");
                       ("DistributionConfig",
                        JObject [ ("Aliases", aliases DOMAIN_NAMES);
                                  ("ViewerCertificate",
                                   JObject [ ("ACMCertificateArn", JNull) ]) ])
                     ]) ].

Definition w_null_certificate : World :=
  world_of with_arn
    (ok (listing_of [summary "E123" DISTRIBUTION_COMMENT]))
    (ok fetched) (ok null_certificate).

(** The update is rejected with two lines on standard error, the first
    ended by CR LF. *)
Definition rejected_crlf : string :=
  "PreconditionFailed" +:+ String "013" (String "010" "retry").

Definition w_rejected_crlf : World :=
  world_of with_arn
    (ok (listing_of [summary "E123" DISTRIBUTION_COMMENT]))
    (ok fetched) (Exited 254 (Undecodable "") rejected_crlf).

(** What the update writes is not text in the encoding of the locale. *)
Definition w_garbled_update : World :=
  world_of with_arn
    (ok (listing_of [summary "E123" DISTRIBUTION_COMMENT]))
    (ok fetched) (Garbled "invalid start byte").

(** There is no aws executable. *)
Definition w_no_aws : World :=
  world_of with_arn (Unlaunched "No such file or directory: 'aws'")
    (ok fetched) (ok updated).

(** * Properties *)

(** ** Dictionaries *)

Lemma dict_get_set_same k v d : dict_get k (dict_set k v d) = Some v.
Proof.
  induction d as [|[k' v'] d IH]; simpl.
  - now rewrite String.eqb_refl.
  - destruct (String.eqb k' k) eqn:E; simpl; now rewrite E.
Qed.

Lemma dict_get_set_other k k' v d :
  k <> k' -> dict_get k' (dict_set k v d) = dict_get k' d.
Proof.
  intros Hne. induction d as [|[k0 v0] d IH]; simpl.
  - destruct (String.eqb_spec k k'); [contradiction | reflexivity].
  - destruct (String.eqb_spec k0 k) as [->|Hk]; simpl.
    + destruct (String.eqb_spec k k'); [contradiction | reflexivity].
    + now rewrite IH.
Qed.

Lemma unrelated_set k v d :
  k = "ViewerCertificate" \/ k = "Aliases" ->
  unrelated (dict_set k v d) = unrelated d.
Proof.
  intros Hk. unfold unrelated.
  induction d as [|[k0 v0] d IH]; simpl.
  - destruct Hk as [-> | ->]; reflexivity.
  - destruct (String.eqb_spec k0 k) as [->|Hne]; simpl.
    + destruct Hk as [-> | ->]; reflexivity.
    + rewrite IH. reflexivity.
Qed.

(** C1.  The mutation step accepts every configuration document (a JSON
    object) with every certificate reference and every domain list, and in
    the document it produces every key other than ['ViewerCertificate'] and
    ['Aliases'] holds the value it held in the input; the members under
    those other keys are the same and in the same order, so they are written
    back as they were fetched. *)
Theorem update_config_frame (CERT_ARN : string) (L : list string) (D : dict) :
  exists D' : dict,
    update_config CERT_ARN L (JObject D) = Ok (JObject D') /\
    (forall k : string,
        k <> "ViewerCertificate" -> k <> "Aliases" ->
        dict_get k D' = dict_get k D) /\
    unrelated D' = unrelated D.
Proof.
  eexists. split; [reflexivity|]. split.
  - intros k Hv Ha.
    rewrite dict_get_set_other by congruence.
    now rewrite dict_get_set_other by congruence.
  - rewrite unrelated_set by now right.
    now rewrite unrelated_set by now left.
Qed.

(** C2.  Whatever the configuration held before, after the mutation step its
    viewer-certificate block is exactly the four members below: the
    certificate reference given (the script passes the value of
    ACM_CERTIFICATE_ARN), the SNI-only support method, the TLSv1.2_2021
    protocol floor and the ACM certificate source (spelled ['acm'] in the
    document). *)
Theorem update_config_viewer_certificate (CERT_ARN : string) (L : list string)
    (D : dict) :
  exists D' : dict,
    update_config CERT_ARN L (JObject D) = Ok (JObject D') /\
    dict_get "ViewerCertificate" D' =
      Some (JObject [ ("ACMCertificateArn", JString CERT_ARN);
                      ("SSLSupportMethod", JString "sni-only");
                      ("MinimumProtocolVersion", JString "TLSv1.2_2021");
                      ("CertificateSource", JString "acm") ]).
Proof.
  eexists. split; [reflexivity|].
  rewrite dict_get_set_other by discriminate.
  apply dict_get_set_same.
Qed.

(** C3.  Whatever aliases the configuration held before, after the mutation
    step its alias block is exactly: Quantity, the length of the domain list;
    Items, the domain list in the order given. *)
Theorem update_config_aliases (CERT_ARN : string) (L : list string) (D : dict) :
  exists D' : dict,
    update_config CERT_ARN L (JObject D) = Ok (JObject D') /\
    dict_get "Aliases" D' =
      Some (JObject [ ("Quantity", JInt (Z.of_nat (length L)));
                      ("Items", JArray (map JString L)) ]).
Proof.
  eexists. split; [reflexivity|]. apply dict_get_set_same.
Qed.

(** ** Only [sys.exit] raises [SystemExit]

    The operations on values raise ordinary exceptions, which the handlers
    of the script catch. *)

Lemma subscript_raises v k e : subscript v k = Raise e -> is_Exception e = true.
Proof.
  destruct v; simpl; try (intros [= <-]; reflexivity).
  destruct (dict_get k members); intros [= <-]; reflexivity.
Qed.

Lemma path_raises ks : forall v e, path v ks = Raise e -> is_Exception e = true.
Proof.
  induction ks as [|k ks IH]; simpl; intros v e H; [discriminate|].
  destruct (subscript v k) eqn:E; simpl in H.
  - eauto.
  - injection H as <-. eauto using subscript_raises.
Qed.

Lemma iterate_raises v e : iterate v = Raise e -> is_Exception e = true.
Proof. destruct v; simpl; intros [= <-]; reflexivity. Qed.

Lemma scan_raises items e : scan items = Raise e -> is_Exception e = true.
Proof.
  induction items as [|dist rest IH]; simpl; [discriminate|].
  destruct (subscript dist "Comment") eqn:E; simpl.
  - destruct (eq_str a DISTRIBUTION_COMMENT); eauto using subscript_raises.
  - intros [= <-]. eauto using subscript_raises.
Qed.

Lemma split_last_raises v e : split_last v = Raise e -> is_Exception e = true.
Proof. destruct v; simpl; intros [= <-]; reflexivity. Qed.

Lemma as_argv_raises args : forall e, as_argv args = Raise e -> is_Exception e = true.
Proof.
  induction args as [|v rest IH]; simpl; intros e; [discriminate|].
  destruct v; try (intros [= <-]; reflexivity).
  destruct (has_nul s); [intros [= <-]; reflexivity|].
  destruct (as_argv rest); simpl; [discriminate|].
  intros [= <-]. eauto.
Qed.

Lemma update_config_raises arn names config e :
  update_config arn names config = Raise e -> is_Exception e = true.
Proof. destruct config; simpl; intros [= <-]; reflexivity. Qed.

Ltac caught :=
  match goal with
  | H : ?op = Raise ?e, H' : is_Exception ?e = false |- _ =>
      first [ apply subscript_raises in H | apply path_raises in H
            | apply iterate_raises in H | apply scan_raises in H
            | apply split_last_raises in H | apply as_argv_raises in H
            | apply update_config_raises in H ];
      congruence
  end.

(** ** The effect of each stage on the trace and the disk *)

Ltac split_match :=
  match goal with
  | |- context [match ?x with _ => _ end] =>
      lazymatch x with
      | context [match _ with _ => _ end] => fail
      | _ => destruct x eqn:?
      end
  end.

Ltac run_stage :=
  cbv [bind lift ret raise sys_exit print try_except json_loads];
  repeat (split_match; cbn [fst snd printed calls disk is_Exception]).

Ltac conclude :=
  intros;
  repeat match goal with
         | H : (_, _) = (_, _) |- _ => inversion H; clear H; subst
         end;
  cbn [fst snd printed calls disk] in *.

Section Stages.

Variable w : World.

Lemma as_argv_list : as_argv (map JString list_argv) = Ok list_argv.
Proof. reflexivity. Qed.

(** The resolver starts exactly one command, the listing, never touches the
    disk, and ends with an identifier or with [sys.exit(1)]. *)
Lemma get_distribution_id_effect (st st' : state) (r : result json) :
  get_distribution_id w st = (r, st') ->
  calls st' = calls st ++ [Call list_argv (disk st)] /\
  disk st' = disk st /\
  ((exists dist_id, r = Ok dist_id /\ truthy dist_id = true) \/
   r = Raise (SystemExit 1)).
Proof.
  unfold get_distribution_id, subprocess_run. rewrite as_argv_list.
  run_stage; conclude; repeat split; eauto; try discriminate; try caught.
  all: left; eexists; split; [reflexivity|].
  all: match goal with H : negb _ = false |- _ =>
         now apply negb_false_iff in H end.
Qed.

Lemma as_argv_get (dist_id : json) (cmd : list string) :
  as_argv (get_args dist_id) = Ok cmd ->
  exists i, dist_id = JString i /\ cmd = get_argv i.
Proof.
  destruct dist_id; try discriminate. simpl.
  destruct (has_nul s); [discriminate|]. intros [= <-]. eauto.
Qed.

Lemma as_argv_update (dist_id etag : json) (cmd : list string) :
  as_argv (update_args dist_id etag) = Ok cmd ->
  exists i t, dist_id = JString i /\ etag = JString t /\ cmd = update_argv i t.
Proof.
  destruct dist_id; try discriminate. simpl.
  destruct (has_nul s); [discriminate|].
  destruct etag; try discriminate. simpl.
  destruct (has_nul s0); [discriminate|]. intros [= <-]. eauto.
Qed.

(** The fetcher starts at most one command, the fetch for the identifier it
    was given, never touches the disk, and ends with the configuration and
    the entity tag of the response or with [sys.exit(1)]. *)
Lemma get_distribution_config_effect (dist_id : json) (st st' : state)
    (r : result (json * json)) :
  get_distribution_config w dist_id st = (r, st') ->
  disk st' = disk st /\
  ((r = Raise (SystemExit 1) /\ calls st' = calls st) \/
   exists i, dist_id = JString i /\
     calls st' = calls st ++ [Call (get_argv i) (disk st)] /\
     (r = Raise (SystemExit 1) \/
      exists resp stderr config etag,
        spawn w (calls st) (get_argv i) (disk st)
          = Exited 0 (Decodes resp) stderr /\
        subscript resp "DistributionConfig" = Ok config /\
        subscript resp "ETag" = Ok etag /\
        r = Ok (config, etag))).
Proof.
  unfold get_distribution_config, subprocess_run.
  destruct (as_argv (get_args dist_id)) as [cmd|e] eqn:Hargs.
  - apply as_argv_get in Hargs as (i & -> & ->).
    run_stage; conclude; (split; [reflexivity|]); try caught;
      right; exists i; repeat split; eauto.
    right. apply Z.eqb_eq in Heqb. subst. eauto 10.
  - run_stage; conclude; try caught; eauto.
Qed.

(** The mutation and the save start no command; when they succeed the
    temporary file holds the mutated configuration, and when they fail
    (the configuration is not an object, the file cannot be opened) the
    disk is as it was and the exception is not caught by anyone. *)
Lemma mutate_and_save_effect (CERT_ARN : string) (config : json)
    (st st' : state) (r : result json) :
  mutate_and_save w CERT_ARN config st = (r, st') ->
  calls st' = calls st /\
  ((exists config', r = Ok config' /\
      update_config CERT_ARN DOMAIN_NAMES config = Ok config' /\
      disk st' = <[tmp_path := JsonDump config']> (disk st)) \/
   (exists e, r = Raise e /\ is_Exception e = true /\ disk st' = disk st)).
Proof.
  unfold mutate_and_save, dump_to.
  run_stage; conclude; (split; [reflexivity|]).
  - right. eauto.
  - left. eauto.
  - right. eauto using update_config_raises.
Qed.

(** The report prints and does nothing else. *)
Lemma report_effect (updated : json) (st st' : state) (r : result unit) :
  report updated st = (r, st') ->
  calls st' = calls st /\ disk st' = disk st /\
  (forall e, r = Raise e -> is_Exception e = true).
Proof.
  unfold report. cbv [for_each DOMAIN_NAMES].
  run_stage; conclude; repeat split; intros; try discriminate.
  all: match goal with H : Raise _ = Raise _ |- _ => injection H as <- end.
  all: eauto using path_raises, split_last_raises.
Qed.

(** The submitter starts at most one command, the update for the identifier
    and the entity tag it was given, never touches the disk, and ends
    normally or with [sys.exit(1)]. *)
Lemma update_distribution_effect (dist_id etag : json) (st st' : state)
    (r : result unit) :
  update_distribution w dist_id etag st = (r, st') ->
  disk st' = disk st /\
  (r = Ok tt \/ r = Raise (SystemExit 1)) /\
  (calls st' = calls st \/
   exists i t, dist_id = JString i /\ etag = JString t /\
     as_argv (update_args dist_id etag) = Ok (update_argv i t) /\
     calls st' = calls st ++ [Call (update_argv i t) (disk st)]).
Proof.
  unfold update_distribution, subprocess_run.
  destruct (as_argv (update_args dist_id etag)) as [cmd|e] eqn:Hargs.
  - destruct (as_argv_update _ _ _ Hargs) as (i & t & -> & -> & ->).
    run_stage; conclude;
      repeat match goal with
             | H : report _ _ = _ |- _ =>
                 apply report_effect in H as (? & ? & ?)
             end;
      cbn [fst snd printed calls disk] in *.
    all: repeat split; try congruence; eauto 8.
    + destruct a. now left.
    + match goal with
      | H : forall e, Raise ?x = Raise e -> _, H' : is_Exception ?x = false |- _ =>
          specialize (H x eq_refl); congruence
      end.
  - run_stage; conclude; try caught; repeat split; eauto.
Qed.

Lemma announce_effect (CERT_ARN : string) (st : state) :
  exists lines,
    announce CERT_ARN st = (Ok tt, State (printed st ++ lines) (calls st) (disk st)).
Proof.
  eexists [_; _; _]. unfold announce. cbv [bind print]. cbn.
  now rewrite <- !app_assoc.
Qed.

Lemma announced_calls arn : calls (announced w arn) = [].
Proof. reflexivity. Qed.

Lemma announced_disk arn : disk (announced w arn) = disk0 w.
Proof. reflexivity. Qed.

Lemma run_progress : progress w.
Proof.
  destruct (environ w !! "ACM_CERTIFICATE_ARN") as [[|c arn]|] eqn:Henv.
  1, 3: apply (Stopped w []); unfold run, main; try rewrite Henv; auto.
  pose proof (announced_calls (String c arn)) as Hc0.
  pose proof (announced_disk (String c arn)) as Hd0.
  assert (Hmain : run w =
            (let (r, st1) := get_distribution_id w (announced w (String c arn)) in
             match r with
             | Ok dist_id =>
                 bind (get_distribution_config w dist_id) (fun fetched =>
                   bind (mutate_and_save w (String c arn) (fst fetched))
                     (fun _ => update_distribution w dist_id (snd fetched))) st1
             | Raise e => (Raise e, st1)
             end)).
  { unfold run, main. rewrite Henv. reflexivity. }
  destruct (get_distribution_id w (announced w (String c arn))) as [r1 st1] eqn:H1.
  destruct (get_distribution_id_effect _ _ _ H1) as (Hc1 & Hd1 & Hr1).
  rewrite Hc0, Hd0 in Hc1. rewrite Hd0 in Hd1. cbn in Hc1.
  destruct Hr1 as [(dist_id & -> & _) | ->].
  2: { apply (Stopped w [Call list_argv (disk0 w)]); try rewrite Hmain; auto. }
  unfold bind in Hmain.
  destruct (get_distribution_config w dist_id st1) as [r2 st2] eqn:H2.
  destruct (get_distribution_config_effect _ _ _ _ H2) as (Hd2 & Hr2).
  rewrite Hd1 in Hd2. rewrite Hc1, Hd1 in Hr2. cbn in Hr2.
  destruct Hr2 as [[-> Hc2] | (i & -> & Hc2 & Hr2)].
  { apply (Stopped w [Call list_argv (disk0 w)]); try rewrite Hmain; auto. }
  destruct Hr2 as [-> | (resp & err & config & etag & Hresp & Hcfg & Htag & ->)].
  { apply (Stopped w [Call list_argv (disk0 w); Call (get_argv i) (disk0 w)]);
      try rewrite Hmain; eauto. }
  cbn [fst snd] in Hmain.
  destruct (mutate_and_save w (String c arn) config st2) as [r3 st3] eqn:H3.
  destruct (mutate_and_save_effect _ _ _ _ _ H3) as (Hc3 & Hr3).
  rewrite Hc2 in Hc3.
  destruct Hr3 as [(config' & -> & Hmut & Hd3) | (e & -> & He & Hd3)].
  - rewrite Hd2 in Hd3.
    exact (Submitting w (String c arn) i config etag config' st1 st2 st3
             Henv H1 H2 resp err Hresp Hcfg Htag Hmut H3 Hc3 Hd3 Hmain).
  - apply (Stopped w [Call list_argv (disk0 w); Call (get_argv i) (disk0 w)]);
      try rewrite Hmain; eauto.
    destruct e; try discriminate; reflexivity.
Qed.

End Stages.

(** ** The write-back call *)

Section WriteBack.

Variable w : World.

Lemma not_update_list : ~ is_update (Call list_argv (disk0 w)).
Proof. unfold is_update. cbn. discriminate. Qed.

Lemma not_update_get i : ~ is_update (Call (get_argv i) (disk0 w)).
Proof. unfold is_update. cbn. discriminate. Qed.

Lemma update_call_submitted (c : call) :
  In c (calls (snd (run w))) -> is_update c -> submitted w c.
Proof.
  intros Hin Hup.
  destruct (run_progress w).
  - exfalso. rewrite Hcalls in Hin.
    destruct Hprefix as [-> | [-> | (i & ->)]]; cbn in Hin;
      repeat match goal with
             | H : _ \/ _ |- _ => destruct H
             | H : False |- _ => destruct H
             end; subst c;
      first [ now apply not_update_list in Hup | now apply (not_update_get i) in Hup ].
  - destruct (run w) as [r st'] eqn:Hr. symmetry in Hrun.
    destruct (update_distribution_effect _ _ _ _ _ _ Hrun) as (Hd & _ & Hc).
    cbn [snd] in Hin.
    destruct Hc as [Hc | (i' & t & Hi & -> & Hargs & Hc)].
    + exfalso. rewrite Hc, Hcalls in Hin. cbn in Hin.
      destruct Hin as [<- | [<- | []]];
        first [ now apply not_update_list in Hup | now apply (not_update_get i) in Hup ].
    + injection Hi as <-. rewrite Hc, Hcalls in Hin.
      apply in_app_or in Hin. destruct Hin as [Hin | [<- | []]].
      * exfalso. cbn in Hin. destruct Hin as [<- | [<- | []]];
          first [ now apply not_update_list in Hup | now apply (not_update_get i) in Hup ].
      * rewrite Hdisk in *.
        eapply (Submitted w _ CERT_ARN i t resp config config' stderr st1 st2 st3);
          eauto; rewrite ?Hr; cbn [snd]; congruence.
Qed.

End WriteBack.

(** ** The scenario of the specification, run *)

Example scenario_runs : exit_code (fst (run w_scenario)) = 0.
Proof. vm_compute. reflexivity. Qed.

Example scenario_calls :
  map argv (calls (snd (run w_scenario))) =
    [list_argv; get_argv "E123"; update_argv "E123" "E_OLD"].
Proof. vm_compute. reflexivity. Qed.

Example scenario_disk :
  disk (snd (run w_scenario)) !! tmp_path = Some (JsonDump new_config).
Proof. vm_compute. reflexivity. Qed.

(** ** The guard on the certificate reference *)

(** C5.  When ACM_CERTIFICATE_ARN is absent from the environment the run
    ends with exit status 1 having printed one error line, started no
    command and left the disk as it was. *)
Theorem missing_certificate_halts (w : World) :
  environ w !! "ACM_CERTIFICATE_ARN" = None ->
  exit_code (fst (run w)) = 1 /\
  calls (snd (run w)) = [] /\
  disk (snd (run w)) = disk0 w /\
  printed (snd (run w)) =
    [[Text "❌ Error: ACM_CERTIFICATE_ARN environment variable not set"]].
Proof.
  intros Henv. unfold run, main. rewrite Henv. repeat split.
Qed.

Lemma missing_certificate_halts_witness :
  environ w_unset !! "ACM_CERTIFICATE_ARN" = None /\
  exit_code (fst (run w_unset)) = 1 /\
  calls (snd (run w_unset)) = [] /\
  disk (snd (run w_unset)) = disk0 w_unset /\
  printed (snd (run w_unset)) =
    [[Text "❌ Error: ACM_CERTIFICATE_ARN environment variable not set"]].
Proof.
  split; [reflexivity | apply (missing_certificate_halts w_unset); reflexivity].
Defined.

(** C9.  An empty ACM_CERTIFICATE_ARN is treated like an absent one: the
    guard tests the truth value of the string, so the run ends with exit
    status 1 after the same error line, with no command started. *)
Theorem empty_certificate_halts (w : World) :
  environ w !! "ACM_CERTIFICATE_ARN" = Some "" ->
  exit_code (fst (run w)) = 1 /\
  calls (snd (run w)) = [] /\
  disk (snd (run w)) = disk0 w /\
  printed (snd (run w)) =
    [[Text "❌ Error: ACM_CERTIFICATE_ARN environment variable not set"]].
Proof.
  intros Henv. unfold run, main. rewrite Henv. repeat split.
Qed.

Lemma empty_certificate_halts_witness :
  environ w_empty !! "ACM_CERTIFICATE_ARN" = Some "" /\
  exit_code (fst (run w_empty)) = 1 /\
  calls (snd (run w_empty)) = [] /\
  disk (snd (run w_empty)) = disk0 w_empty /\
  printed (snd (run w_empty)) =
    [[Text "❌ Error: ACM_CERTIFICATE_ARN environment variable not set"]].
Proof.
  split; [reflexivity | apply (empty_certificate_halts w_empty); reflexivity].
Defined.

(** ** The arguments of the write-back *)

(** C6.  Every update command a run starts carries, after [--id], the
    identifier the resolver returned and, after [--if-match], the string
    found under ['ETag'] in the response of the fetch for that identifier,
    as it is. *)
Theorem write_back_arguments (w : World) (c : call) :
  In c (calls (snd (run w))) -> is_update c ->
  exists (CERT_ARN i t : string) (resp : json) (stderr : string) (st1 : state),
    get_distribution_id w (announced w CERT_ARN) = (Ok (JString i), st1) /\
    spawn w [Call list_argv (disk0 w)] (get_argv i) (disk0 w)
      = Exited 0 (Decodes resp) stderr /\
    subscript resp "ETag" = Ok (JString t) /\
    argv c = ["aws"; "cloudfront"; "update-distribution"; "--id"; i;
              "--distribution-config"; "file:///tmp/dist-config-updated.json";
              "--if-match"; t; "--output"; "json"].
Proof.
  intros Hin Hup. destruct (update_call_submitted w c Hin Hup).
  exists CERT_ARN, i, t, resp, stderr, st1. subst c. auto.
Qed.

(** ** The temporary file *)

(** C8.  When a run starts the update command, the command finds at
    /tmp/dist-config-updated.json the dump of the mutated configuration, is
    pointed at that file by its [--distribution-config] argument, and is the
    first command to see the file (the listing and the fetch saw the disk
    as it was at the start); when the run ends, however it ends, the file
    is still there with the same content. *)
Theorem temp_file_written_and_kept (w : World) (c : call) :
  In c (calls (snd (run w))) -> is_update c ->
  exists (CERT_ARN i : string) (resp config config' : json) (stderr : string),
    spawn w [Call list_argv (disk0 w)] (get_argv i) (disk0 w)
      = Exited 0 (Decodes resp) stderr /\
    subscript resp "DistributionConfig" = Ok config /\
    update_config CERT_ARN DOMAIN_NAMES config = Ok config' /\
    seen c !! "/tmp/dist-config-updated.json" = Some (JsonDump config') /\
    nth 6 (argv c) "" = "file:///tmp/dist-config-updated.json" /\
    (forall c', In c' (calls (snd (run w))) -> c' <> c -> seen c' = disk0 w) /\
    disk (snd (run w)) !! "/tmp/dist-config-updated.json"
      = Some (JsonDump config').
Proof.
  intros Hin Hup. destruct (update_call_submitted w c Hin Hup).
  exists CERT_ARN, i, resp, config, config', stderr.
  repeat split; auto.
  - subst c. cbn [seen]. apply lookup_insert_eq.
  - subst c. reflexivity.
  - intros c' Hin' Hne. rewrite Hcalls, Hcalls3 in Hin'.
    cbn in Hin'. destruct Hin' as [<- | [<- | [<- | []]]];
      [reflexivity | reflexivity | contradiction].
  - rewrite Hdisk. apply lookup_insert_eq.
Qed.

Lemma write_back_arguments_witness :
  In scenario_update (calls (snd (run w_scenario))) /\
  is_update scenario_update /\
  exists (CERT_ARN i t : string) (resp : json) (stderr : string) (st1 : state),
    get_distribution_id w_scenario (announced w_scenario CERT_ARN)
      = (Ok (JString i), st1) /\
    spawn w_scenario [Call list_argv (disk0 w_scenario)] (get_argv i)
          (disk0 w_scenario)
      = Exited 0 (Decodes resp) stderr /\
    subscript resp "ETag" = Ok (JString t) /\
    argv scenario_update =
      ["aws"; "cloudfront"; "update-distribution"; "--id"; i;
       "--distribution-config"; "file:///tmp/dist-config-updated.json";
       "--if-match"; t; "--output"; "json"].
Proof.
  assert (Hin : In scenario_update (calls (snd (run w_scenario)))).
  { vm_compute. right. right. left. reflexivity. }
  assert (Hup : is_update scenario_update) by reflexivity.
  split; [exact Hin | split; [exact Hup |]].
  exact (write_back_arguments w_scenario scenario_update Hin Hup).
Defined.

Lemma temp_file_written_and_kept_witness :
  In scenario_update (calls (snd (run w_scenario))) /\
  is_update scenario_update /\
  exists (CERT_ARN i : string) (resp config config' : json) (stderr : string),
    spawn w_scenario [Call list_argv (disk0 w_scenario)] (get_argv i)
          (disk0 w_scenario)
      = Exited 0 (Decodes resp) stderr /\
    subscript resp "DistributionConfig" = Ok config /\
    update_config CERT_ARN DOMAIN_NAMES config = Ok config' /\
    seen scenario_update !! "/tmp/dist-config-updated.json"
      = Some (JsonDump config') /\
    nth 6 (argv scenario_update) "" = "file:///tmp/dist-config-updated.json" /\
    (forall c', In c' (calls (snd (run w_scenario))) ->
                c' <> scenario_update -> seen c' = disk0 w_scenario) /\
    disk (snd (run w_scenario)) !! "/tmp/dist-config-updated.json"
      = Some (JsonDump config').
Proof.
  assert (Hin : In scenario_update (calls (snd (run w_scenario)))).
  { vm_compute. right. right. left. reflexivity. }
  assert (Hup : is_update scenario_update) by reflexivity.
  split; [exact Hin | split; [exact Hup |]].
  exact (temp_file_written_and_kept w_scenario scenario_update Hin Hup).
Defined.

(** ** A failed listing *)

(** C7, at a listing that the service refuses.  The run ends with exit
    status 1 after the one listing command, and the error line it prints is
    the text of the exception: the command and its exit status.  What the
    command wrote on its standard error was captured and is printed
    nowhere. *)
Theorem listing_failure_omits_stderr :
  spawn w_listing_denied [] list_argv ∅ = Exited 254 (Undecodable "") denied /\
  exit_code (fst (run w_listing_denied)) = 1 /\
  map argv (calls (snd (run w_listing_denied))) = [list_argv] /\
  printed (snd (run w_listing_denied)) =
    [ [Text "🔧 Updating CloudFront distribution with certificate..."];
      [Text "   Certificate ARN: "; Text example_arn];
      [Text "   Domain names: ";
       Text "itsonlycastlesburning.com, *.itsonlycastlesburning.com"];
      [Text "❌ Error listing distributions: "; Text "Command '";
       Repr (JArray (map JString list_argv));
       Text "' returned non-zero exit status "; Repr (JInt 254); Text "."] ] /\
  (forall l, In l (printed (snd (run w_listing_denied))) -> ~ In (Text denied) l).
Proof.
  split; [reflexivity|]. split; [reflexivity|].
  split; [vm_compute; reflexivity|].
  assert (Hp : printed (snd (run w_listing_denied)) =
    [ [Text "🔧 Updating CloudFront distribution with certificate..."];
      [Text "   Certificate ARN: "; Text example_arn];
      [Text "   Domain names: ";
       Text "itsonlycastlesburning.com, *.itsonlycastlesburning.com"];
      [Text "❌ Error listing distributions: "; Text "Command '";
       Repr (JArray (map JString list_argv));
       Text "' returned non-zero exit status "; Repr (JInt 254); Text "."] ]).
  { vm_compute. reflexivity. }
  split; [exact Hp|].
  intros l Hl. rewrite Hp in Hl. cbn in Hl.
  intros Hin.
  repeat match goal with
         | H : _ \/ _ |- _ => destruct H
         | H : False |- _ => destruct H
         end; subst l; cbn in Hin;
    repeat match goal with
           | H : _ \/ _ |- _ => destruct H
           | H : False |- _ => destruct H
           | H : _ = Text denied |- _ => discriminate H
           end.
Qed.

(** The same at a fetch that the service refuses. *)
Example fetch_failure_omits_stderr :
  exit_code (fst (run w_fetch_denied)) = 1 /\
  map argv (calls (snd (run w_fetch_denied))) = [list_argv; get_argv "E123"] /\
  List.last (printed (snd (run w_fetch_denied))) [] =
    [Text "❌ Error getting distribution config: "; Text "Command '";
     Repr (JArray (map JString (get_argv "E123")));
     Text "' returned non-zero exit status "; Repr (JInt 254); Text "."].
Proof. repeat split; vm_compute; reflexivity. Qed.

Section Rejected.

Variable w : World.

Lemma update_distribution_rejected (i t : string) (st : state)
    (returncode : Z) (out : captured) (stderr : string) :
  as_argv (update_args (JString i) (JString t)) = Ok (update_argv i t) ->
  spawn w (calls st) (update_argv i t) (disk st)
    = Exited returncode out stderr ->
  returncode <> 0 ->
  exists st',
    update_distribution w (JString i) (JString t) st
      = (Raise (SystemExit 1), st') /\
    calls st' = calls st ++ [Call (update_argv i t) (disk st)] /\
    List.last (printed st') [] =
      [Text "❌ Error updating distribution: ";
       Text (universal_newlines stderr)].
Proof.
  intros Hargs Hspawn Hrc.
  unfold update_distribution, subprocess_run.
  cbv [try_except bind print]. cbn [printed calls disk].
  rewrite Hargs, Hspawn.
  destruct (returncode =? 0) eqn:E; [apply Z.eqb_eq in E; contradiction|].
  cbn. eexists. split; [reflexivity|]. split; [reflexivity|]. apply last_last.
Qed.

(** Where the update command is the one that fails, the handler for
    [CalledProcessError] prints the standard error of the command as
    [text=True] decoded it, the run ends with exit status 1 and starts
    nothing after it. *)
Lemma rejected_update_prints_stderr (prev : list call) (c : call)
    (returncode : Z) (out : captured) (stderr : string) :
  calls (snd (run w)) = prev ++ [c] ->
  is_update c ->
  spawn w prev (argv c) (seen c) = Exited returncode out stderr ->
  returncode <> 0 ->
  exit_code (fst (run w)) = 1 /\
  List.last (printed (snd (run w))) [] =
    [Text "❌ Error updating distribution: ";
     Text (universal_newlines stderr)].
Proof.
  intros Hcalls' Hup Hspawn Hrc.
  assert (Hin : In c (calls (snd (run w)))).
  { rewrite Hcalls'. apply in_or_app. right. now left. }
  destruct (update_call_submitted w c Hin Hup).
  rewrite Hcalls in Hcalls'. apply app_inj_tail in Hcalls' as [Hprev _].
  subst prev c. cbn [argv seen] in Hspawn. rewrite <- Hdisk3 in Hspawn.
  destruct (update_distribution_rejected i t st3 returncode out stderr
              Hargs Hspawn Hrc) as (st' & Hrun' & _ & Hlast).
  rewrite Hrun, Hrun'. cbn [fst snd exit_code]. auto.
Qed.

End Rejected.

Example stale_tag_prints_stderr :
  exit_code (fst (run w_stale)) = 1 /\
  map argv (calls (snd (run w_stale)))
    = [list_argv; get_argv "E123"; update_argv "E123" "E_OLD"] /\
  List.last (printed (snd (run w_stale))) [] =
    [Text "❌ Error updating distribution: "; Text stale].
Proof. repeat split; vm_compute; reflexivity. Qed.

(** ** The resolver *)

Lemma scan_first_match (items : list json) :
  forallb is_summary items = true ->
  scan items = match first_match items with
               | Some dist => subscript dist "Id"
               | None => Ok JNull
               end.
Proof.
  unfold first_match.
  induction items as [|dist rest IH]; cbn; [reflexivity|].
  intros H. apply andb_true_iff in H as [Hd Hrest].
  unfold is_summary in Hd. unfold comment_matches.
  destruct (subscript dist "Comment") as [comment|] eqn:Hc; [|discriminate].
  cbn. destruct (eq_str comment DISTRIBUTION_COMMENT); [reflexivity | auto].
Qed.

Section Resolver.

Variable w : World.
Variable CERT_ARN : string.
Hypothesis Henv : environ w !! "ACM_CERTIFICATE_ARN" = Some CERT_ARN.
Hypothesis Hset : CERT_ARN <> "".

Lemma run_after_resolver :
  run w =
    (let (r, st1) := get_distribution_id w (announced w CERT_ARN) in
     match r with
     | Ok dist_id =>
         bind (get_distribution_config w dist_id) (fun fetched =>
           bind (mutate_and_save w CERT_ARN (fst fetched))
             (fun _ => update_distribution w dist_id (snd fetched))) st1
     | Raise e => (Raise e, st1)
     end).
Proof.
  unfold run, main. rewrite Henv.
  destruct CERT_ARN; [contradiction | reflexivity].
Qed.

Variables (resp : json) (items : list json) (stderr : string).
Hypothesis Hspawn :
  spawn w [] list_argv (disk0 w) = Exited 0 (Decodes resp) stderr.
Hypothesis Hitems : path resp ["DistributionList"; "Items"] = Ok (JArray items).
Hypothesis Hsummaries : forallb is_summary items = true.

Lemma resolver_scans :
  get_distribution_id w (announced w CERT_ARN) =
    (let st := announced w CERT_ARN in
     let st1 := State (printed st) [Call list_argv (disk0 w)] (disk0 w) in
     match first_match items with
     | Some dist =>
         match subscript dist "Id" with
         | Ok dist_id =>
             if truthy dist_id
             then (Ok dist_id,
                   State (printed st ++ [[Text "✅ Found distribution ID: ";
                                          fmt dist_id]])
                         [Call list_argv (disk0 w)] (disk0 w))
             else (Raise (SystemExit 1),
                   State (printed st ++ [not_found_line])
                         [Call list_argv (disk0 w)] (disk0 w))
         | Raise e =>
             (Raise (SystemExit 1),
              State (printed st ++
                       [Text "❌ Error listing distributions: " :: str_exn e])
                    [Call list_argv (disk0 w)] (disk0 w))
         end
     | None =>
         (Raise (SystemExit 1),
          State (printed st ++ [not_found_line])
                [Call list_argv (disk0 w)] (disk0 w))
     end).
Proof.
  unfold get_distribution_id, subprocess_run. rewrite as_argv_list.
  cbv [try_except bind lift json_loads ret].
  rewrite announced_calls, announced_disk, Hspawn. cbn [Z.eqb].
  rewrite Hitems. cbn [iterate]. rewrite (scan_first_match items Hsummaries).
  destruct (first_match items) as [dist|]; [|reflexivity].
  destruct (subscript dist "Id") as [dist_id|e] eqn:Hid.
  - destruct (truthy dist_id); reflexivity.
  - rewrite (subscript_raises _ _ _ Hid). reflexivity.
Qed.

End Resolver.

(** C4, as the script has it.  For a listing whose entries are summaries
    (objects with a comment and an identifier), the resolver goes through the
    entries in the order of the listing and stops at the first one whose
    comment is the target comment.  When the identifier of that entry is
    truthy (a non-empty string) the resolver returns it, having started the
    listing command only.  When no entry has the target comment, or the
    identifier of the first such entry is falsy (the empty string, null),
    the script prints the not-found line and exits with status 1, and the
    listing stays the only command of the run: no fetch, no update. *)
Theorem resolver_first_usable_match (w : World) (CERT_ARN : string)
    (resp : json) (items : list json) (stderr : string) :
  environ w !! "ACM_CERTIFICATE_ARN" = Some CERT_ARN ->
  CERT_ARN <> "" ->
  spawn w [] list_argv (disk0 w) = Exited 0 (Decodes resp) stderr ->
  path resp ["DistributionList"; "Items"] = Ok (JArray items) ->
  forallb is_summary items = true ->
  match first_match items with
  | Some dist =>
      exists dist_id,
        subscript dist "Id" = Ok dist_id /\
        (truthy dist_id = true ->
         exists st1,
           get_distribution_id w (announced w CERT_ARN) = (Ok dist_id, st1) /\
           calls st1 = [Call list_argv (disk0 w)]) /\
        (truthy dist_id = false -> stops_not_found w)
  | None => stops_not_found w
  end.
Proof.
  intros Henv Hset Hspawn Hitems Hsummaries.
  pose proof (resolver_scans w CERT_ARN resp items stderr Hspawn Hitems Hsummaries)
    as Hscan.
  pose proof (run_after_resolver w CERT_ARN Henv Hset) as Hrun.
  cbv zeta in Hscan.
  destruct (first_match items) as [dist|] eqn:Hfirst.
  - assert (Hsum : is_summary dist = true).
    { apply find_some in Hfirst as [Hin _].
      rewrite forallb_forall in Hsummaries. auto. }
    unfold is_summary in Hsum.
    destruct (subscript dist "Comment"); [|discriminate].
    destruct (subscript dist "Id") as [dist_id|]; [|discriminate].
    exists dist_id. split; [reflexivity|].
    destruct (truthy dist_id); split; intros Ht; try discriminate.
    + eexists. split; [exact Hscan | reflexivity].
    + rewrite Hscan in Hrun. unfold stops_not_found. rewrite Hrun.
      cbn [fst snd exit_code calls printed]. repeat split; try apply last_last.
  - rewrite Hscan in Hrun. unfold stops_not_found. rewrite Hrun.
    cbn [fst snd exit_code calls printed]. repeat split; try apply last_last.
Qed.

Lemma resolver_first_usable_match_witness :
  environ w_second !! "ACM_CERTIFICATE_ARN" = Some example_arn /\
  example_arn <> "" /\
  spawn w_second [] list_argv (disk0 w_second)
    = Exited 0 (Decodes (listing_of [summary "E000" "another distribution";
                                     summary "E123" DISTRIBUTION_COMMENT])) "" /\
  path (listing_of [summary "E000" "another distribution";
                    summary "E123" DISTRIBUTION_COMMENT])
       ["DistributionList"; "Items"]
    = Ok (JArray [summary "E000" "another distribution";
                  summary "E123" DISTRIBUTION_COMMENT]) /\
  forallb is_summary [summary "E000" "another distribution";
                      summary "E123" DISTRIBUTION_COMMENT] = true /\
  match first_match [summary "E000" "another distribution";
                     summary "E123" DISTRIBUTION_COMMENT] with
  | Some dist =>
      exists dist_id,
        subscript dist "Id" = Ok dist_id /\
        (truthy dist_id = true ->
         exists st1,
           get_distribution_id w_second (announced w_second example_arn)
             = (Ok dist_id, st1) /\
           calls st1 = [Call list_argv (disk0 w_second)]) /\
        (truthy dist_id = false -> stops_not_found w_second)
  | None => stops_not_found w_second
  end.
Proof.
  assert (Hset : example_arn <> "") by discriminate.
  split; [reflexivity | split; [exact Hset | split; [reflexivity |
    split; [reflexivity | split; [reflexivity |]]]]].
  apply (resolver_first_usable_match w_second example_arn
           (listing_of [summary "E000" "another distribution";
                        summary "E123" DISTRIBUTION_COMMENT])
           [summary "E000" "another distribution";
            summary "E123" DISTRIBUTION_COMMENT] "");
    [reflexivity | exact Hset | reflexivity | reflexivity | reflexivity].
Defined.

(** C4 as it is worded fails where the first entry with the target comment
    has an empty identifier: the entry is there, its identifier is the empty
    string, and the resolver does not return it but leaves through
    [sys.exit(1)] with the not-found line. *)
Lemma resolver_rejects_blank_identifier :
  spawn w_blank_id [] list_argv (disk0 w_blank_id)
    = Exited 0 (Decodes (listing_of [summary "" DISTRIBUTION_COMMENT])) "" /\
  first_match [summary "" DISTRIBUTION_COMMENT]
    = Some (summary "" DISTRIBUTION_COMMENT) /\
  subscript (summary "" DISTRIBUTION_COMMENT) "Id" = Ok (JString "") /\
  fst (get_distribution_id w_blank_id (announced w_blank_id example_arn))
    <> Ok (JString "") /\
  fst (get_distribution_id w_blank_id (announced w_blank_id example_arn))
    = Raise (SystemExit 1) /\
  List.last (printed (snd (run w_blank_id))) [] = not_found_line.
Proof.
  split; [reflexivity|]. split; [reflexivity|]. split; [reflexivity|].
  split; [vm_compute; discriminate|].
  split; vm_compute; reflexivity.
Qed.


(** * Further properties of the script *)

(** ** Laws of the state-and-exception monad *)

Lemma bind_bind {A B C} (m : M A) (f : A -> M B) (k : B -> M C) (st : state) :
  bind (bind m f) k st = bind m (fun x => bind (f x) k) st.
Proof. unfold bind. destruct (m st) as [[a|e] st']; reflexivity. Qed.

Lemma bind_ret {A B} (a : A) (k : A -> M B) (st : state) :
  bind (ret a) k st = k a st.
Proof. reflexivity. Qed.

Lemma bind_print {B} (l : line) (k : unit -> M B) (st : state) :
  bind (print l) k st = k tt (says st [l]).
Proof. reflexivity. Qed.

Lemma bind_lift {A B} (r : result A) (k : A -> M B) (st : state) :
  bind (lift r) k st =
    match r with Ok a => k a st | Raise e => (Raise e, st) end.
Proof. reflexivity. Qed.

Lemma print_says (l : line) (st : state) : print l st = (Ok tt, says st [l]).
Proof. reflexivity. Qed.

Lemma says_says (st : state) (l l' : list line) :
  says (says st l) l' = says st (l ++ l').
Proof. unfold says. cbn [printed calls disk]. now rewrite app_assoc. Qed.

Ltac step :=
  first [ rewrite bind_bind | rewrite bind_ret | rewrite bind_print
        | rewrite bind_lift | rewrite print_says ];
  cbv beta iota.

(** ** Each stage, as a function of what its command answers *)

Section StageEquations.

Variable w : World.

(** The resolver, when the listing exits with status 0. *)
Lemma get_distribution_id_answered (st : state) (out : captured)
    (stderr : string) :
  spawn w (calls st) list_argv (disk st) = Exited 0 out stderr ->
  get_distribution_id w st =
    match listed_id out with
    | Ok dist_id =>
        if truthy dist_id
        then (Ok dist_id,
              says (started st list_argv)
                   [[Text "✅ Found distribution ID: "; fmt dist_id]])
        else (Raise (SystemExit 1),
              says (started st list_argv) [not_found_line])
    | Raise e =>
        (Raise (SystemExit 1),
         says (started st list_argv)
              [Text "❌ Error listing distributions: " :: str_exn e])
    end.
Proof.
  intros Hspawn.
  unfold get_distribution_id, subprocess_run. rewrite as_argv_list.
  cbv [try_except bind lift json_loads ret raise].
  rewrite Hspawn. cbn [Z.eqb].
  destruct out as [distributions | raw]; cbn [listed_id]; [|reflexivity].
  destruct (path distributions ["DistributionList"; "Items"]) as [Items|e] eqn:Hp;
    cbn [and_then].
  2: { rewrite (path_raises _ _ _ Hp). reflexivity. }
  destruct (iterate Items) as [dists|e] eqn:Hi; cbn [and_then].
  2: { rewrite (iterate_raises _ _ Hi). reflexivity. }
  destruct (scan dists) as [dist_id|e] eqn:Hs.
  2: { rewrite (scan_raises _ _ Hs). reflexivity. }
  destruct (truthy dist_id); reflexivity.
Qed.

(** The resolver, when the listing does not exit with status 0. *)
Lemma get_distribution_id_refused (st : state) (returncode : Z)
    (out : captured) (stderr : string) :
  spawn w (calls st) list_argv (disk st) = Exited returncode out stderr ->
  returncode <> 0 ->
  get_distribution_id w st =
    (Raise (SystemExit 1),
     says (started st list_argv)
          [Text "❌ Error listing distributions: "
             :: str_exn (CalledProcessError returncode list_argv out
                           (universal_newlines stderr))]).
Proof.
  intros Hspawn Hrc.
  unfold get_distribution_id, subprocess_run. rewrite as_argv_list.
  cbv [try_except bind lift json_loads ret raise].
  rewrite Hspawn.
  destruct (returncode =? 0) eqn:E; [apply Z.eqb_eq in E; contradiction|].
  reflexivity.
Qed.

Lemma get_distribution_id_unlaunched (st : state) (strerror : string) :
  spawn w (calls st) list_argv (disk st) = Unlaunched strerror ->
  get_distribution_id w st =
    (Raise (SystemExit 1),
     says (started st list_argv)
          [[Text "❌ Error listing distributions: "; Diag (OSError strerror)]]).
Proof.
  intros Hspawn.
  unfold get_distribution_id, subprocess_run. rewrite as_argv_list.
  cbv [try_except bind lift json_loads ret raise].
  rewrite Hspawn. reflexivity.
Qed.

Lemma as_argv_get_string (i : string) :
  has_nul i = false -> as_argv (get_args (JString i)) = Ok (get_argv i).
Proof. intros H. cbn. rewrite H. reflexivity. Qed.

Lemma as_argv_get_other (dist_id : json) :
  (forall i, dist_id <> JString i) ->
  as_argv (get_args dist_id) = Raise (TypeError dist_id).
Proof. intros H. destruct dist_id; try reflexivity. now destruct (H s). Qed.

Lemma as_argv_update_string (i t : string) :
  has_nul i = false -> has_nul t = false ->
  as_argv (update_args (JString i) (JString t)) = Ok (update_argv i t).
Proof. intros Hi Ht. cbn. rewrite Hi, Ht. reflexivity. Qed.

Lemma as_argv_update_other (i : string) (etag : json) :
  has_nul i = false ->
  (forall t, etag <> JString t) ->
  as_argv (update_args (JString i) etag) = Raise (TypeError etag).
Proof.
  intros Hi H. cbn. rewrite Hi.
  destruct etag; try reflexivity. now destruct (H s).
Qed.

(** The fetcher, when the fetch exits with status 0. *)
Lemma get_distribution_config_answered (i : string) (st : state)
    (out : captured) (stderr : string) :
  has_nul i = false ->
  spawn w (calls st) (get_argv i) (disk st) = Exited 0 out stderr ->
  get_distribution_config w (JString i) st =
    match fetched_parts out with
    | Ok (config, etag) =>
        (Ok (config, etag),
         says (started st (get_argv i)) [retrieved_line etag])
    | Raise e =>
        (Raise (SystemExit 1),
         says (started st (get_argv i))
              [Text "❌ Error getting distribution config: " :: str_exn e])
    end.
Proof.
  intros Hnul Hspawn.
  unfold get_distribution_config, subprocess_run.
  rewrite (as_argv_get_string _ Hnul).
  cbv [try_except bind lift json_loads ret raise].
  rewrite Hspawn. cbn [Z.eqb].
  destruct out as [dist_response | raw]; cbn [fetched_parts]; [|reflexivity].
  destruct (subscript dist_response "DistributionConfig") as [config|e] eqn:Hc;
    cbn [and_then].
  2: { rewrite (subscript_raises _ _ _ Hc). reflexivity. }
  destruct (subscript dist_response "ETag") as [etag|e] eqn:Ht; cbn [and_then].
  2: { rewrite (subscript_raises _ _ _ Ht). reflexivity. }
  reflexivity.
Qed.

(** The fetcher, when the fetch does not exit with status 0. *)
Lemma get_distribution_config_refused (i : string) (st : state)
    (returncode : Z) (out : captured) (stderr : string) :
  has_nul i = false ->
  spawn w (calls st) (get_argv i) (disk st) = Exited returncode out stderr ->
  returncode <> 0 ->
  get_distribution_config w (JString i) st =
    (Raise (SystemExit 1),
     says (started st (get_argv i))
          [Text "❌ Error getting distribution config: "
             :: str_exn (CalledProcessError returncode (get_argv i) out
                           (universal_newlines stderr))]).
Proof.
  intros Hnul Hspawn Hrc.
  unfold get_distribution_config, subprocess_run.
  rewrite (as_argv_get_string _ Hnul).
  cbv [try_except bind lift json_loads ret raise].
  rewrite Hspawn.
  destruct (returncode =? 0) eqn:E; [apply Z.eqb_eq in E; contradiction|].
  reflexivity.
Qed.

(** The fetcher, when its arguments are not an argument vector. *)
Lemma get_distribution_config_unstartable (dist_id : json) (st : state)
    (e : exn) :
  as_argv (get_args dist_id) = Raise e ->
  get_distribution_config w dist_id st =
    (Raise (SystemExit 1),
     says st [Text "❌ Error getting distribution config: " :: str_exn e]).
Proof.
  intros Hargs.
  unfold get_distribution_config, subprocess_run. rewrite Hargs.
  cbv [try_except bind lift json_loads ret raise].
  rewrite (as_argv_raises _ _ Hargs). reflexivity.
Qed.

(** The mutation and the save. *)
Lemma mutate_and_save_saved (CERT_ARN : string) (config config' : json)
    (st : state) :
  update_config CERT_ARN DOMAIN_NAMES config = Ok config' ->
  open_w w tmp_path = None ->
  mutate_and_save w CERT_ARN config st =
    (Ok config',
     State (printed st ++ updated_lines) (calls st)
           (<[tmp_path := JsonDump config']> (disk st))).
Proof.
  intros Hmut Hopen. unfold mutate_and_save, dump_to.
  cbv [bind lift print ret]. rewrite Hmut, Hopen. cbn.
  now rewrite <- !app_assoc.
Qed.

Lemma mutate_and_save_unopened (CERT_ARN : string) (config config' : json)
    (st : state) (strerror : string) :
  update_config CERT_ARN DOMAIN_NAMES config = Ok config' ->
  open_w w tmp_path = Some strerror ->
  mutate_and_save w CERT_ARN config st =
    (Raise (OSError strerror), says st updated_lines).
Proof.
  intros Hmut Hopen. unfold mutate_and_save, dump_to.
  cbv [bind lift print ret]. rewrite Hmut, Hopen. cbn.
  unfold says. cbn. now rewrite <- !app_assoc.
Qed.

Lemma mutate_and_save_unassignable (CERT_ARN : string) (config : json)
    (st : state) (e : exn) :
  update_config CERT_ARN DOMAIN_NAMES config = Raise e ->
  mutate_and_save w CERT_ARN config st = (Raise e, st).
Proof.
  intros Hmut. unfold mutate_and_save. cbv [bind lift]. now rewrite Hmut.
Qed.

(** The report, when the five values can be read. *)
Lemma report_complete (updated id domain items status : json)
    (certificate : string) (st : state) :
  report_fields updated = Ok (id, domain, items, certificate, status) ->
  report updated st =
    (Ok tt, says st (report_lines id domain items certificate status)).
Proof.
  unfold report_fields.
  destruct (path updated ["Distribution"; "Id"]) eqn:H1; [|discriminate].
  cbn [and_then].
  destruct (path updated ["Distribution"; "DomainName"]) eqn:H2;
    [|discriminate].
  cbn [and_then].
  destruct (path updated ["Distribution"; "DistributionConfig"; "Aliases";
                          "Items"]) eqn:H3; [|discriminate].
  cbn [and_then].
  destruct (path updated ["Distribution"; "DistributionConfig";
                          "ViewerCertificate"; "ACMCertificateArn"]) eqn:H4;
    [|discriminate].
  cbn [and_then].
  destruct (split_last _) eqn:H5; [|discriminate].
  cbn [and_then].
  destruct (path updated ["Distribution"; "Status"]) eqn:H6; [|discriminate].
  cbn [and_then].
  intros [= -> -> -> -> ->].
  unfold report. cbv [for_each DOMAIN_NAMES].
  repeat (step; rewrite ?H1, ?H2, ?H3, ?H4, ?H5, ?H6; cbv beta iota).
  rewrite !says_says. reflexivity.
Qed.

(** The report, when one of them cannot. *)
Lemma report_incomplete (updated : json) (st : state) (e : exn) :
  report_fields updated = Raise e ->
  exists st', report updated st = (Raise e, st').
Proof.
  unfold report_fields, report.
  destruct (path updated ["Distribution"; "Id"]) eqn:H1; cbn [and_then].
  2: { intros [= ->]. repeat (step; rewrite ?H1). eauto. }
  destruct (path updated ["Distribution"; "DomainName"]) eqn:H2;
    cbn [and_then].
  2: { intros [= ->]. repeat (step; rewrite ?H1, ?H2). eauto. }
  destruct (path updated ["Distribution"; "DistributionConfig"; "Aliases";
                          "Items"]) eqn:H3; cbn [and_then].
  2: { intros [= ->]. repeat (step; rewrite ?H1, ?H2, ?H3). eauto. }
  destruct (path updated ["Distribution"; "DistributionConfig";
                          "ViewerCertificate"; "ACMCertificateArn"]) eqn:H4;
    cbn [and_then].
  2: { intros [= ->]. repeat (step; rewrite ?H1, ?H2, ?H3, ?H4). eauto. }
  destruct (split_last _) eqn:H5; cbn [and_then].
  2: { intros [= ->]. repeat (step; rewrite ?H1, ?H2, ?H3, ?H4, ?H5). eauto. }
  destruct (path updated ["Distribution"; "Status"]) eqn:H6; cbn [and_then].
  2: { intros [= ->].
       repeat (step; rewrite ?H1, ?H2, ?H3, ?H4, ?H5, ?H6). eauto. }
  discriminate.
Qed.

(** The submitter, when the update exits with status 0 and the report can
    be made. *)
Lemma update_distribution_reported (i t : string) (st : state)
    (updated id domain items status : json) (certificate stderr : string) :
  has_nul i = false -> has_nul t = false ->
  spawn w (calls st) (update_argv i t) (disk st)
    = Exited 0 (Decodes updated) stderr ->
  report_fields updated = Ok (id, domain, items, certificate, status) ->
  update_distribution w (JString i) (JString t) st =
    (Ok tt,
     says (started st (update_argv i t))
          (updating_line :: report_lines id domain items certificate status)).
Proof.
  intros Hi Ht Hspawn Hfields.
  unfold update_distribution, subprocess_run.
  rewrite (as_argv_update_string _ _ Hi Ht).
  cbv [try_except bind lift json_loads ret raise print].
  cbn [printed calls disk]. rewrite Hspawn. cbn [Z.eqb].
  rewrite (report_complete _ _ _ _ _ _ _ Hfields).
  unfold says, started, updating_line. cbn [printed calls disk].
  now rewrite <- !app_assoc.
Qed.

(** The submitter, when its arguments are not an argument vector. *)
Lemma update_distribution_unstartable (dist_id etag culprit : json)
    (st : state) :
  as_argv (update_args dist_id etag) = Raise (TypeError culprit) ->
  update_distribution w dist_id etag st =
    (Raise (SystemExit 1),
     says st [updating_line; [Text "❌ Error: "; Diag (TypeError culprit)]]).
Proof.
  intros Hargs.
  unfold update_distribution, subprocess_run.
  cbv [try_except bind lift json_loads ret raise print].
  cbn [printed calls disk]. rewrite Hargs. cbn.
  unfold says, updating_line. cbn. now rewrite <- !app_assoc.
Qed.

(** The submitter ends normally only when the update was started, exited
    with status 0 and answered with a document the report could read. *)
Lemma update_distribution_ended (dist_id etag : json) (st st' : state) :
  update_distribution w dist_id etag st = (Ok tt, st') ->
  exists i t updated stderr fields,
    dist_id = JString i /\ etag = JString t /\
    spawn w (calls st) (update_argv i t) (disk st)
      = Exited 0 (Decodes updated) stderr /\
    report_fields updated = Ok fields /\
    calls st' = calls st ++ [Call (update_argv i t) (disk st)] /\
    disk st' = disk st.
Proof.
  unfold update_distribution, subprocess_run.
  destruct (as_argv (update_args dist_id etag)) as [cmd|e] eqn:Hargs.
  - destruct (as_argv_update _ _ _ Hargs) as (i & t & -> & -> & ->).
    cbv [try_except bind lift json_loads ret raise print sys_exit].
    cbn [printed calls disk].
    destruct (spawn w (calls st) (update_argv i t) (disk st))
      as [returncode out stderr | reason | strerror] eqn:Hspawn.
    2, 3: cbn; discriminate.
    destruct (returncode =? 0) eqn:Hrc.
    2: { cbn. discriminate. }
    apply Z.eqb_eq in Hrc. subst returncode.
    destruct out as [updated | raw].
    2: { cbn. discriminate. }
    destruct (report updated _) as [r st''] eqn:Hrep.
    destruct r as [a|e].
    2: { destruct e; cbn; discriminate. }
    intros [= _ <-].
    destruct (report_effect _ _ _ _ Hrep) as (Hc & Hd & _).
    cbn [calls disk] in Hc, Hd.
    destruct (report_fields updated) as [fields|e] eqn:Hf.
    + exists i, t, updated, stderr, fields. auto 10.
    + exfalso.
      match type of Hrep with
      | report _ ?s = _ =>
          destruct (report_incomplete updated s e Hf) as [st0 Hst0]
      end.
      congruence.
  - cbv [try_except bind lift json_loads ret raise print sys_exit].
    cbn [printed calls disk].
    rewrite (as_argv_raises _ _ Hargs). destruct e; discriminate.
Qed.

End StageEquations.

(** ** The submitter, when the update does not exit with status 0 *)

Lemma update_distribution_refused (w : World) (i t : string) (st : state)
    (returncode : Z) (out : captured) (stderr : string) :
  has_nul i = false -> has_nul t = false ->
  spawn w (calls st) (update_argv i t) (disk st)
    = Exited returncode out stderr ->
  returncode <> 0 ->
  update_distribution w (JString i) (JString t) st =
    (Raise (SystemExit 1),
     says (started st (update_argv i t))
          [updating_line;
           [Text "❌ Error updating distribution: ";
            Text (universal_newlines stderr)]]).
Proof.
  intros Hi Ht Hspawn Hrc.
  unfold update_distribution, subprocess_run.
  rewrite (as_argv_update_string _ _ Hi Ht).
  cbv [try_except bind lift json_loads ret raise print sys_exit].
  cbn [printed calls disk]. rewrite Hspawn.
  destruct (returncode =? 0) eqn:E; [apply Z.eqb_eq in E; contradiction|].
  unfold says, started, updating_line.
  cbn [printed calls disk is_Exception]. now rewrite <- !app_assoc.
Qed.

(** ** The mutation step on its own *)

Lemma dict_set_set (k : string) (v v' : json) (d : dict) :
  dict_set k v' (dict_set k v d) = dict_set k v' d.
Proof.
  induction d as [|[k0 v0] d IH]; simpl.
  - now rewrite String.eqb_refl.
  - destruct (String.eqb k0 k) eqn:E; simpl; rewrite E; [reflexivity|].
    now rewrite IH.
Qed.

Lemma dict_set_swap (k1 k2 : string) (v1 v2 : json) (d : dict) :
  k1 <> k2 -> dict_get k1 d <> None ->
  dict_set k1 v1 (dict_set k2 v2 d) = dict_set k2 v2 (dict_set k1 v1 d).
Proof.
  intros Hne. induction d as [|[k0 v0] d IH]; simpl; [congruence|].
  destruct (String.eqb_spec k0 k1) as [E1|H1];
    destruct (String.eqb_spec k0 k2) as [E2|H2]; simpl; intros Hin.
  - congruence.
  - subst k0. destruct (String.eqb_spec k1 k2); [contradiction|].
    now rewrite String.eqb_refl.
  - subst k0. destruct (String.eqb_spec k2 k1); [congruence|].
    now rewrite String.eqb_refl.
  - destruct (String.eqb_spec k0 k1); [contradiction|].
    destruct (String.eqb_spec k0 k2); [contradiction|].
    now rewrite IH.
Qed.

Lemma dict_set_keys (k : string) (v : json) (d : dict) :
  map fst (dict_set k v d) = map fst d ++ missing k d.
Proof.
  unfold missing. induction d as [|[k0 v0] d IH]; simpl; [reflexivity|].
  destruct (String.eqb k0 k) eqn:E; simpl.
  - now rewrite app_nil_r.
  - rewrite IH. now destruct (dict_get k d).
Qed.

(** X1.  Running the mutation step a second time, with any certificate
    reference and any domain list, gives what running it once with these
    would have given: the step overwrites, it accumulates nothing, and a
    re-run of the script on an already updated configuration changes only
    what the new values change. *)
Theorem update_config_overwrites (arn1 arn2 : string) (L1 L2 : list string)
    (config : json) :
  and_then (update_config arn1 L1 config) (update_config arn2 L2)
    = update_config arn2 L2 config.
Proof.
  destruct config; try reflexivity.
  unfold update_config. cbn [setitem and_then]. do 2 f_equal.
  rewrite (dict_set_swap "ViewerCertificate" "Aliases").
  - now rewrite dict_set_set, dict_set_set.
  - discriminate.
  - now rewrite dict_get_set_same.
Qed.

(** X2.  The mutation step succeeds on every object, keeps every key of the
    configuration at its position, and appends ['ViewerCertificate'] and
    ['Aliases'], in this order, when the configuration does not have
    them. *)
Theorem update_config_keys (CERT_ARN : string) (L : list string) (D : dict) :
  exists D',
    update_config CERT_ARN L (JObject D) = Ok (JObject D') /\
    map fst D' = map fst D ++ missing "ViewerCertificate" D
                            ++ missing "Aliases" D.
Proof.
  eexists. split; [reflexivity|].
  rewrite !dict_set_keys, <- app_assoc. do 2 f_equal.
  unfold missing. now rewrite dict_get_set_other.
Qed.

(** ** The certificate line of the report *)

Lemma has_slash_app (p q : string) : has_slash (p +:+ "/" +:+ q) = true.
Proof.
  unfold has_slash. induction p as [|c p IH]; [reflexivity|].
  change (String c p +:+ "/" +:+ q) with (String c (p +:+ "/" +:+ q)).
  cbn [list_ascii_of_string existsb]. rewrite IH. apply orb_true_r.
Qed.

(** X3.  What the report shows of a certificate reference is what follows
    its last slash: for a reference [p/q] in which [q] has no slash, [q]. *)
Theorem last_segment_after_last_slash (p q : string) :
  has_slash q = false ->
  last_segment (p +:+ "/" +:+ q) = q.
Proof.
  intros Hq. induction p as [|c p IH].
  - change ("" +:+ "/" +:+ q) with (String "/" q).
    cbn [last_segment]. fold (has_slash q). now rewrite Hq.
  - change (String c p +:+ "/" +:+ q) with (String c (p +:+ "/" +:+ q)).
    cbn [last_segment]. fold (has_slash (p +:+ "/" +:+ q)).
    now rewrite has_slash_app.
Qed.

Lemma last_segment_after_last_slash_witness :
  has_slash "abc" = false /\
  last_segment example_arn = "abc".
Proof.
  split; [reflexivity|].
  apply (last_segment_after_last_slash
           "arn:aws:acm:us-east-1:123456789012:certificate" "abc").
  reflexivity.
Defined.

(** ** The loop of the resolver *)

(** X4.  An entry without a comment stops the lookup when the loop reaches
    it: every entry before it was passed over, the exception of the
    subscript comes out of the loop, and it does not matter whether the
    target entry follows. *)
Theorem scan_stops_at_entry_without_comment (before after : list json)
    (dist : json) (e : exn) :
  forallb passed_over before = true ->
  subscript dist "Comment" = Raise e ->
  scan (before ++ dist :: after) = Raise e.
Proof.
  intros Hbefore Hdist.
  induction before as [|d before IH]; cbn [app scan].
  - now rewrite Hdist.
  - cbn [forallb] in Hbefore. apply andb_true_iff in Hbefore as [Hd Hrest].
    unfold passed_over in Hd.
    destruct (subscript d "Comment") as [comment|]; [|discriminate].
    cbn [and_then]. apply negb_true_iff in Hd. rewrite Hd. auto.
Qed.

Lemma scan_stops_at_entry_without_comment_witness :
  scan [ summary "E000" "another distribution";
         JObject [ ("Id", JString "E111") ];
         summary "E123" DISTRIBUTION_COMMENT ]
    = Raise (KeyError "Comment").
Proof.
  apply (scan_stops_at_entry_without_comment
           [summary "E000" "another distribution"]
           [summary "E123" DISTRIBUTION_COMMENT]
           (JObject [ ("Id", JString "E111") ]));
    reflexivity.
Defined.

(** ** Every run *)

(** X5.  Whatever the environment, the commands and the disk do, the
    interpreter ends with exit status 0 or 1. *)
Theorem exit_status_is_0_or_1 (w : World) :
  exit_code (fst (run w)) = 0 \/ exit_code (fst (run w)) = 1.
Proof.
  destruct (run_progress w).
  - now right.
  - rewrite Hrun.
    destruct (update_distribution w (JString i) etag st3) as [r st'] eqn:Hup.
    destruct (update_distribution_effect _ _ _ _ _ _ Hup) as (_ & [-> | ->] & _);
      cbn; auto.
Qed.

(** X6.  A run starts at most three commands, each of them once and in this
    order: the listing, the fetch for one identifier, the update for the
    same identifier.  The first two see the disk as it was at the start,
    the update sees it with the temporary file. *)
Theorem commands_start_in_order (w : World) :
  exists (i t : string) (config' : json) (rest : list call),
    calls (snd (run w)) ++ rest =
      [ Call list_argv (disk0 w);
        Call (get_argv i) (disk0 w);
        Call (update_argv i t) (<[tmp_path := JsonDump config']> (disk0 w)) ].
Proof.
  destruct (run_progress w).
  - rewrite Hcalls.
    destruct Hprefix as [-> | [-> | (i & ->)]].
    + exists "", "", JNull. eexists. reflexivity.
    + exists "", "", JNull. eexists. reflexivity.
    + exists i, "", JNull. eexists. reflexivity.
  - rewrite Hrun.
    destruct (update_distribution w (JString i) etag st3) as [r st'] eqn:Hup.
    destruct (update_distribution_effect _ _ _ _ _ _ Hup)
      as (_ & _ & [Hc | (i' & t & [= <-] & -> & _ & Hc)]);
      cbn [snd]; rewrite Hc, Hcalls.
    + exists i, "", config'. eexists. reflexivity.
    + exists i, t, config', []. rewrite Hdisk. reflexivity.
Qed.

(** X8.  Exit status 0 is reached only through a reported update: the three
    commands were started, the update exited with status 0, its output was
    a document from which the report could read its five values, and the
    temporary file holds the configuration that was sent. *)
Theorem exit_0_only_after_reported_update (w : World) :
  exit_code (fst (run w)) = 0 ->
  exists (i t stderr : string) (config' updated : json) fields,
    calls (snd (run w)) =
      [ Call list_argv (disk0 w);
        Call (get_argv i) (disk0 w);
        Call (update_argv i t) (<[tmp_path := JsonDump config']> (disk0 w)) ] /\
    spawn w [Call list_argv (disk0 w); Call (get_argv i) (disk0 w)]
          (update_argv i t) (<[tmp_path := JsonDump config']> (disk0 w))
      = Exited 0 (Decodes updated) stderr /\
    report_fields updated = Ok fields /\
    disk (snd (run w)) = <[tmp_path := JsonDump config']> (disk0 w).
Proof.
  intros Hexit.
  destruct (run_progress w); [congruence|].
  rewrite Hrun in Hexit |- *.
  destruct (update_distribution w (JString i) etag st3) as [r st'] eqn:Hup.
  destruct (update_distribution_effect _ _ _ _ _ _ Hup) as (_ & [-> | ->] & _);
    [|discriminate].
  destruct (update_distribution_ended _ _ _ _ _ Hup)
    as (i' & t & updated & err & fields & [= <-] & -> & Hsp & Hf & Hc & Hd).
  rewrite Hcalls, Hdisk in *.
  exists i, t, err, config', updated, fields. cbn [snd].
  rewrite Hc, Hd. auto.
Qed.

Lemma exit_0_only_after_reported_update_witness :
  exit_code (fst (run w_scenario)) = 0 /\
  exists (i t stderr : string) (config' updated : json) fields,
    calls (snd (run w_scenario)) =
      [ Call list_argv (disk0 w_scenario);
        Call (get_argv i) (disk0 w_scenario);
        Call (update_argv i t)
             (<[tmp_path := JsonDump config']> (disk0 w_scenario)) ] /\
    spawn w_scenario
          [Call list_argv (disk0 w_scenario);
           Call (get_argv i) (disk0 w_scenario)]
          (update_argv i t)
          (<[tmp_path := JsonDump config']> (disk0 w_scenario))
      = Exited 0 (Decodes updated) stderr /\
    report_fields updated = Ok fields /\
    disk (snd (run w_scenario))
      = <[tmp_path := JsonDump config']> (disk0 w_scenario).
Proof.
  split; [vm_compute; reflexivity|].
  apply (exit_0_only_after_reported_update w_scenario).
  vm_compute. reflexivity.
Defined.

(** ** A run, stage by stage *)

Section Run.

Variable w : World.
Variable CERT_ARN : string.
Hypothesis Henv : environ w !! "ACM_CERTIFICATE_ARN" = Some CERT_ARN.
Hypothesis Hset : CERT_ARN <> "".

Lemma announced_lines :
  announced w CERT_ARN = State (announce_lines CERT_ARN) [] (disk0 w).
Proof. reflexivity. Qed.

(** X9.  When the aws command cannot be started, the run prints the message
    of the operating system after [Error listing distributions], ends with
    exit status 1, and has tried nothing but the listing. *)
Theorem listing_not_started (strerror : string) :
  spawn w [] list_argv (disk0 w) = Unlaunched strerror ->
  run w =
    (Raise (SystemExit 1),
     State (announce_lines CERT_ARN ++
              [[Text "❌ Error listing distributions: ";
                Diag (OSError strerror)]])
           [Call list_argv (disk0 w)] (disk0 w)).
Proof.
  intros Hlist. rewrite (run_after_resolver w CERT_ARN Henv Hset).
  rewrite (get_distribution_id_unlaunched w _ strerror) by exact Hlist.
  reflexivity.
Qed.

Section Listed.

Variables (out : captured) (stderr : string).
Hypothesis Hlist : spawn w [] list_argv (disk0 w) = Exited 0 out stderr.

Lemma run_listed :
  run w =
    match listed_id out with
    | Ok dist_id =>
        if truthy dist_id
        then bind (get_distribution_config w dist_id) (fun fetched =>
               bind (mutate_and_save w CERT_ARN (fst fetched))
                 (fun _ => update_distribution w dist_id (snd fetched)))
               (State (announce_lines CERT_ARN ++ [found_line dist_id])
                      [Call list_argv (disk0 w)] (disk0 w))
        else (Raise (SystemExit 1),
              State (announce_lines CERT_ARN ++ [not_found_line])
                    [Call list_argv (disk0 w)] (disk0 w))
    | Raise e =>
        (Raise (SystemExit 1),
         State (announce_lines CERT_ARN ++
                  [Text "❌ Error listing distributions: " :: str_exn e])
               [Call list_argv (disk0 w)] (disk0 w))
    end.
Proof.
  rewrite (run_after_resolver w CERT_ARN Henv Hset).
  rewrite (get_distribution_id_answered w _ out stderr) by exact Hlist.
  destruct (listed_id out) as [dist_id|e]; [destruct (truthy dist_id)|];
    reflexivity.
Qed.

(** X10.  When the listing exits with status 0 and the identifier cannot be
    read from its output (the output is not JSON, ['DistributionList'] or
    ['Items'] is missing, an entry that the loop reaches has no comment),
    the run prints the exception after [Error listing distributions], ends
    with exit status 1, and has started nothing but the listing. *)
Theorem unreadable_listing_stops (e : exn) :
  listed_id out = Raise e ->
  run w =
    (Raise (SystemExit 1),
     State (announce_lines CERT_ARN ++
              [Text "❌ Error listing distributions: " :: str_exn e])
           [Call list_argv (disk0 w)] (disk0 w)).
Proof. intros He. rewrite run_listed, He. reflexivity. Qed.

(** X11.  When the identifier of the target entry is not a string (and is
    not falsy), the run announces it as found, cannot build the fetch
    command from it, prints the type error after
    [Error getting distribution config], ends with exit status 1, and has
    started nothing but the listing. *)
Theorem identifier_not_a_string_stops (dist_id : json) :
  listed_id out = Ok dist_id ->
  truthy dist_id = true ->
  (forall i, dist_id <> JString i) ->
  run w =
    (Raise (SystemExit 1),
     State (announce_lines CERT_ARN ++
              [found_line dist_id;
               [Text "❌ Error getting distribution config: ";
                Diag (TypeError dist_id)]])
           [Call list_argv (disk0 w)] (disk0 w)).
Proof.
  intros Hid Htruthy Hother. rewrite run_listed, Hid, Htruthy.
  unfold bind at 1.
  rewrite (get_distribution_config_unstartable w dist_id _ _
             (as_argv_get_other _ Hother)).
  unfold says. cbn [printed calls disk str_exn].
  now rewrite <- app_assoc.
Qed.

Section Fetched.

Variables (i stderr2 : string) (out2 : captured).
Hypothesis Hid : listed_id out = Ok (JString i).
Hypothesis Hi : i <> "".
Hypothesis Hnul : has_nul i = false.
Hypothesis Hfetch :
  spawn w [Call list_argv (disk0 w)] (get_argv i) (disk0 w)
    = Exited 0 out2 stderr2.

Lemma run_fetched :
  run w =
    match fetched_parts out2 with
    | Ok (config, etag) =>
        bind (mutate_and_save w CERT_ARN config)
          (fun _ => update_distribution w (JString i) etag)
          (State (announce_lines CERT_ARN ++
                    [found_line (JString i); retrieved_line etag])
                 [Call list_argv (disk0 w); Call (get_argv i) (disk0 w)]
                 (disk0 w))
    | Raise e =>
        (Raise (SystemExit 1),
         State (announce_lines CERT_ARN ++
                  [found_line (JString i);
                   Text "❌ Error getting distribution config: " :: str_exn e])
               [Call list_argv (disk0 w); Call (get_argv i) (disk0 w)]
               (disk0 w))
    end.
Proof.
  rewrite run_listed, Hid.
  assert (Htruthy : truthy (JString i) = true).
  { cbn. now destruct (String.eqb_spec i ""). }
  rewrite Htruthy. unfold bind at 1.
  rewrite (get_distribution_config_answered w i _ out2 stderr2 Hnul)
    by exact Hfetch.
  destruct (fetched_parts out2) as [[config etag]|e];
    unfold says, started; cbn [printed calls disk fst snd app];
    now rewrite <- app_assoc.
Qed.

(** X12.  When the fetch exits with status 0 and the configuration or the
    entity tag cannot be read from its output, the run prints the exception
    after [Error getting distribution config], ends with exit status 1,
    has started the listing and the fetch only, and has written nothing. *)
Theorem unreadable_fetch_stops (e : exn) :
  fetched_parts out2 = Raise e ->
  run w =
    (Raise (SystemExit 1),
     State (announce_lines CERT_ARN ++
              [found_line (JString i);
               Text "❌ Error getting distribution config: " :: str_exn e])
           [Call list_argv (disk0 w); Call (get_argv i) (disk0 w)]
           (disk0 w)).
Proof. intros He. rewrite run_fetched, He. reflexivity. Qed.

Section Read.

Variables config etag : json.
Hypothesis Hparts : fetched_parts out2 = Ok (config, etag).

(** X13.  When the configuration of the answer is not an object, the first
    assignment raises a type error that no handler is there for: the run
    ends with the exception itself (a traceback and exit status 1), prints
    no error line of its own, writes no file and starts no update. *)
Theorem configuration_not_an_object_escapes :
  (forall D, config <> JObject D) ->
  run w =
    (Raise (TypeError config),
     State (announce_lines CERT_ARN ++
              [found_line (JString i); retrieved_line etag])
           [Call list_argv (disk0 w); Call (get_argv i) (disk0 w)]
           (disk0 w)) /\
  exit_code (fst (run w)) = 1.
Proof.
  intros Hother.
  assert (Hrun : run w =
    (Raise (TypeError config),
     State (announce_lines CERT_ARN ++
              [found_line (JString i); retrieved_line etag])
           [Call list_argv (disk0 w); Call (get_argv i) (disk0 w)]
           (disk0 w))).
  { rewrite run_fetched, Hparts. unfold bind at 1.
    rewrite (mutate_and_save_unassignable w CERT_ARN config _
               (TypeError config)); [reflexivity|].
    destruct config; try reflexivity. now destruct (Hother members). }
  split; [exact Hrun | now rewrite Hrun].
Qed.

Section Mutated.

Variable config' : json.
Hypothesis Hmut : update_config CERT_ARN DOMAIN_NAMES config = Ok config'.

(** X14.  When the temporary file cannot be opened for writing, the error
    of the operating system escapes in the same way: the three lines that
    announce the updated configuration are printed, then the run ends with
    the exception (exit status 1), the disk as it was and no update
    started. *)
Theorem temporary_file_not_writable_escapes (strerror : string) :
  open_w w tmp_path = Some strerror ->
  run w =
    (Raise (OSError strerror),
     State (announce_lines CERT_ARN ++
              [found_line (JString i); retrieved_line etag] ++ updated_lines)
           [Call list_argv (disk0 w); Call (get_argv i) (disk0 w)]
           (disk0 w)) /\
  exit_code (fst (run w)) = 1.
Proof.
  intros Hopen.
  assert (Hrun : run w =
    (Raise (OSError strerror),
     State (announce_lines CERT_ARN ++
              [found_line (JString i); retrieved_line etag] ++ updated_lines)
           [Call list_argv (disk0 w); Call (get_argv i) (disk0 w)]
           (disk0 w))).
  { rewrite run_fetched, Hparts. unfold bind at 1.
    rewrite (mutate_and_save_unopened w CERT_ARN config config' _ strerror
               Hmut Hopen).
    unfold says. cbn [printed calls disk]. now rewrite <- app_assoc. }
  split; [exact Hrun | now rewrite Hrun].
Qed.

Section Saved.

Hypothesis Hopen : open_w w tmp_path = None.

Lemma run_saved :
  run w =
    update_distribution w (JString i) etag
      (State (announce_lines CERT_ARN ++
                [found_line (JString i); retrieved_line etag] ++ updated_lines)
             [Call list_argv (disk0 w); Call (get_argv i) (disk0 w)]
             (<[tmp_path := JsonDump config']> (disk0 w))).
Proof.
  rewrite run_fetched, Hparts. unfold bind at 1.
  rewrite (mutate_and_save_saved w CERT_ARN config config' _ Hmut Hopen).
  cbn [printed calls disk]. now rewrite <- app_assoc.
Qed.

(** X15.  When the entity tag of the answer is not a string, the temporary
    file is written, the update command cannot be built, the run prints
    the type error after [Error:], ends with exit status 1, and has started
    the listing and the fetch only. *)
Theorem entity_tag_not_a_string_stops :
  (forall t, etag <> JString t) ->
  run w =
    (Raise (SystemExit 1),
     State (announce_lines CERT_ARN ++
              [found_line (JString i); retrieved_line etag] ++ updated_lines ++
              [updating_line; [Text "❌ Error: "; Diag (TypeError etag)]])
           [Call list_argv (disk0 w); Call (get_argv i) (disk0 w)]
           (<[tmp_path := JsonDump config']> (disk0 w))).
Proof.
  intros Hother. rewrite run_saved.
  rewrite (update_distribution_unstartable w (JString i) etag etag _
             (as_argv_update_other _ _ Hnul Hother)).
  unfold says. cbn [printed calls disk]. now rewrite <- !app_assoc.
Qed.

Section Submitted.

Variable t : string.
Hypothesis Hetag : etag = JString t.
Hypothesis Hnul' : has_nul t = false.

(** X16.  When the update does not exit with status 0 (a stale entity tag,
    a configuration the service rejects) and what it wrote is text in the
    encoding of the locale, the run prints, after
    [Error updating distribution], the standard error of the command as
    [text=True] hands it over, that is with every CR LF and every other CR
    turned into LF; it ends with exit status 1, has started each of the
    three commands once, and leaves the temporary file in place. *)
Theorem rejected_update_stops (returncode : Z) (out3 : captured)
    (stderr3 : string) :
  spawn w [Call list_argv (disk0 w); Call (get_argv i) (disk0 w)]
        (update_argv i t) (<[tmp_path := JsonDump config']> (disk0 w))
    = Exited returncode out3 stderr3 ->
  returncode <> 0 ->
  run w =
    (Raise (SystemExit 1),
     State (announce_lines CERT_ARN ++
              [found_line (JString i); retrieved_line etag] ++ updated_lines ++
              [updating_line;
               [Text "❌ Error updating distribution: ";
                Text (universal_newlines stderr3)]])
           [ Call list_argv (disk0 w); Call (get_argv i) (disk0 w);
             Call (update_argv i t)
                  (<[tmp_path := JsonDump config']> (disk0 w)) ]
           (<[tmp_path := JsonDump config']> (disk0 w))).
Proof.
  intros Hupdate Hrc. rewrite run_saved. subst etag.
  rewrite (update_distribution_refused w i t _ returncode out3 stderr3
             Hnul Hnul') by (exact Hupdate || exact Hrc).
  unfold says, started. cbn [printed calls disk app].
  now rewrite <- !app_assoc.
Qed.

(** X17.  When each command exits with status 0 and each answer has what
    the script reads from it, the run ends with exit status 0, having
    started the three commands once each, written the mutated configuration
    to the temporary file, and printed, in this order, the announcement,
    the identifier, the entity tag, the summary of the change and the
    report. *)
Theorem reported_update_succeeds (updated id domain items status : json)
    (certificate stderr3 : string) :
  spawn w [Call list_argv (disk0 w); Call (get_argv i) (disk0 w)]
        (update_argv i t) (<[tmp_path := JsonDump config']> (disk0 w))
    = Exited 0 (Decodes updated) stderr3 ->
  report_fields updated = Ok (id, domain, items, certificate, status) ->
  run w =
    (Ok tt,
     State (announce_lines CERT_ARN ++
              [found_line (JString i); retrieved_line etag] ++ updated_lines ++
              updating_line ::
              report_lines id domain items certificate status)
           [ Call list_argv (disk0 w); Call (get_argv i) (disk0 w);
             Call (update_argv i t)
                  (<[tmp_path := JsonDump config']> (disk0 w)) ]
           (<[tmp_path := JsonDump config']> (disk0 w))).
Proof.
  intros Hupdate Hfields. rewrite run_saved. subst etag.
  rewrite (update_distribution_reported w i t _ updated id domain items status
             certificate stderr3 Hnul Hnul') by (exact Hupdate || exact Hfields).
  unfold says, started. cbn [printed calls disk app].
  now rewrite <- !app_assoc.
Qed.

End Submitted.
End Saved.
End Mutated.
End Read.
End Fetched.
End Listed.
End Run.

(** ** The statements above, at the scenarios *)

Lemma listing_not_started_witness :
  spawn w_no_aws [] list_argv (disk0 w_no_aws)
    = Unlaunched "No such file or directory: 'aws'" /\
  run w_no_aws =
    (Raise (SystemExit 1),
     State (announce_lines example_arn ++
              [[Text "❌ Error listing distributions: ";
                Diag (OSError "No such file or directory: 'aws'")]])
           [Call list_argv (disk0 w_no_aws)] (disk0 w_no_aws)).
Proof.
  split; [reflexivity|].
  apply (listing_not_started w_no_aws example_arn);
    [reflexivity | discriminate | reflexivity].
Defined.

Lemma unreadable_listing_stops_witness :
  listed_id
    (Decodes (JObject [ ("DistributionList",
                         JObject [ ("Quantity", JInt 0) ]) ]))
    = Raise (KeyError "Items") /\
  run w_no_items =
    (Raise (SystemExit 1),
     State (announce_lines example_arn ++
              [Text "❌ Error listing distributions: "
                 :: str_exn (KeyError "Items")])
           [Call list_argv (disk0 w_no_items)] (disk0 w_no_items)).
Proof.
  split; [reflexivity|].
  apply (unreadable_listing_stops w_no_items example_arn eq_refl
           ltac:(discriminate)
           (Decodes (JObject [ ("DistributionList",
                                JObject [ ("Quantity", JInt 0) ]) ])) "");
    reflexivity.
Defined.

Lemma identifier_not_a_string_stops_witness :
  truthy (JInt 7) = true /\
  run w_numeric_id =
    (Raise (SystemExit 1),
     State (announce_lines example_arn ++
              [found_line (JInt 7);
               [Text "❌ Error getting distribution config: ";
                Diag (TypeError (JInt 7))]])
           [Call list_argv (disk0 w_numeric_id)] (disk0 w_numeric_id)).
Proof.
  split; [reflexivity|].
  apply (identifier_not_a_string_stops w_numeric_id example_arn eq_refl
           ltac:(discriminate)
           (Decodes (listing_of
              [ JObject [ ("Id", JInt 7);
                          ("Comment", JString DISTRIBUTION_COMMENT) ] ])) "");
    [reflexivity | reflexivity | reflexivity | discriminate].
Defined.

Lemma unreadable_fetch_stops_witness :
  fetched_parts (Decodes (JObject [ ("DistributionConfig", old_config) ]))
    = Raise (KeyError "ETag") /\
  run w_no_etag =
    (Raise (SystemExit 1),
     State (announce_lines example_arn ++
              [found_line (JString "E123");
               Text "❌ Error getting distribution config: "
                 :: str_exn (KeyError "ETag")])
           [Call list_argv (disk0 w_no_etag);
            Call (get_argv "E123") (disk0 w_no_etag)]
           (disk0 w_no_etag)).
Proof.
  split; [reflexivity|].
  apply (unreadable_fetch_stops w_no_etag example_arn eq_refl
           ltac:(discriminate)
           (Decodes (listing_of [summary "E123" DISTRIBUTION_COMMENT])) ""
           eq_refl "E123" ""
           (Decodes (JObject [ ("DistributionConfig", old_config) ])));
    first [reflexivity | discriminate].
Defined.

Lemma configuration_not_an_object_escapes_witness :
  (forall D, JArray [] <> JObject D) /\
  run w_config_list =
    (Raise (TypeError (JArray [])),
     State (announce_lines example_arn ++
              [found_line (JString "E123");
               retrieved_line (JString "E_OLD")])
           [Call list_argv (disk0 w_config_list);
            Call (get_argv "E123") (disk0 w_config_list)]
           (disk0 w_config_list)) /\
  exit_code (fst (run w_config_list)) = 1.
Proof.
  split; [discriminate|].
  apply (configuration_not_an_object_escapes w_config_list example_arn eq_refl
           ltac:(discriminate)
           (Decodes (listing_of [summary "E123" DISTRIBUTION_COMMENT])) ""
           eq_refl "E123" ""
           (Decodes (JObject [ ("ETag", JString "E_OLD");
                               ("DistributionConfig", JArray []) ])));
    first [reflexivity | discriminate].
Defined.

Lemma temporary_file_not_writable_escapes_witness :
  open_w w_read_only tmp_path = Some "Read-only file system" /\
  run w_read_only =
    (Raise (OSError "Read-only file system"),
     State (announce_lines example_arn ++
              [found_line (JString "E123");
               retrieved_line (JString "E_OLD")] ++ updated_lines)
           [Call list_argv (disk0 w_read_only);
            Call (get_argv "E123") (disk0 w_read_only)]
           (disk0 w_read_only)) /\
  exit_code (fst (run w_read_only)) = 1.
Proof.
  split; [reflexivity|].
  apply (temporary_file_not_writable_escapes w_read_only example_arn eq_refl
           ltac:(discriminate)
           (Decodes (listing_of [summary "E123" DISTRIBUTION_COMMENT])) ""
           eq_refl "E123" "" (Decodes fetched)
           eq_refl ltac:(discriminate) eq_refl eq_refl
           old_config (JString "E_OLD") eq_refl new_config);
    reflexivity.
Defined.

Lemma entity_tag_not_a_string_stops_witness :
  (forall t, JInt 5 <> JString t) /\
  run w_numeric_etag =
    (Raise (SystemExit 1),
     State (announce_lines example_arn ++
              [found_line (JString "E123"); retrieved_line (JInt 5)] ++
              updated_lines ++
              [updating_line; [Text "❌ Error: "; Diag (TypeError (JInt 5))]])
           [Call list_argv (disk0 w_numeric_etag);
            Call (get_argv "E123") (disk0 w_numeric_etag)]
           (<[tmp_path := JsonDump new_config]> (disk0 w_numeric_etag))).
Proof.
  split; [discriminate|].
  apply (entity_tag_not_a_string_stops w_numeric_etag example_arn eq_refl
           ltac:(discriminate)
           (Decodes (listing_of [summary "E123" DISTRIBUTION_COMMENT])) ""
           eq_refl "E123" ""
           (Decodes (JObject [ ("ETag", JInt 5);
                               ("DistributionConfig", old_config) ]))
           eq_refl ltac:(discriminate) eq_refl eq_refl
           old_config (JInt 5) eq_refl new_config);
    first [reflexivity | discriminate].
Defined.

Lemma rejected_update_stops_witness :
  spawn w_rejected_crlf
        [Call list_argv (disk0 w_rejected_crlf);
         Call (get_argv "E123") (disk0 w_rejected_crlf)]
        (update_argv "E123" "E_OLD")
        (<[tmp_path := JsonDump new_config]> (disk0 w_rejected_crlf))
    = Exited 254 (Undecodable "") rejected_crlf /\
  universal_newlines rejected_crlf = "PreconditionFailed" +:+ nl +:+ "retry" /\
  run w_rejected_crlf =
    (Raise (SystemExit 1),
     State (announce_lines example_arn ++
              [found_line (JString "E123");
               retrieved_line (JString "E_OLD")] ++ updated_lines ++
              [updating_line;
               [Text "❌ Error updating distribution: ";
                Text (universal_newlines rejected_crlf)]])
           [ Call list_argv (disk0 w_rejected_crlf);
             Call (get_argv "E123") (disk0 w_rejected_crlf);
             Call (update_argv "E123" "E_OLD")
                  (<[tmp_path := JsonDump new_config]>
                     (disk0 w_rejected_crlf)) ]
           (<[tmp_path := JsonDump new_config]> (disk0 w_rejected_crlf))).
Proof.
  split; [reflexivity|]. split; [reflexivity|].
  apply (rejected_update_stops w_rejected_crlf example_arn eq_refl
           ltac:(discriminate)
           (Decodes (listing_of [summary "E123" DISTRIBUTION_COMMENT])) ""
           eq_refl "E123" "" (Decodes fetched)
           eq_refl ltac:(discriminate) eq_refl eq_refl
           old_config (JString "E_OLD") eq_refl new_config eq_refl eq_refl
           "E_OLD" eq_refl eq_refl 254 (Undecodable "") rejected_crlf);
    first [reflexivity | discriminate].
Defined.

Lemma reported_update_succeeds_witness :
  report_fields updated =
    Ok (JString "E123", JString "d111111abcdef8.cloudfront.net",
        JArray (map JString DOMAIN_NAMES), "abc", JString "InProgress") /\
  run w_scenario =
    (Ok tt,
     State (announce_lines example_arn ++
              [found_line (JString "E123");
               retrieved_line (JString "E_OLD")] ++ updated_lines ++
              updating_line ::
              report_lines (JString "E123")
                (JString "d111111abcdef8.cloudfront.net")
                (JArray (map JString DOMAIN_NAMES)) "abc"
                (JString "InProgress"))
           [ Call list_argv (disk0 w_scenario);
             Call (get_argv "E123") (disk0 w_scenario);
             Call (update_argv "E123" "E_OLD")
                  (<[tmp_path := JsonDump new_config]> (disk0 w_scenario)) ]
           (<[tmp_path := JsonDump new_config]> (disk0 w_scenario))).
Proof.
  split; [reflexivity|].
  apply (reported_update_succeeds w_scenario example_arn eq_refl
           ltac:(discriminate)
           (Decodes (listing_of [summary "E123" DISTRIBUTION_COMMENT])) ""
           eq_refl "E123" "" (Decodes fetched)
           eq_refl ltac:(discriminate) eq_refl eq_refl
           old_config (JString "E_OLD") eq_refl new_config eq_refl eq_refl
           "E_OLD" eq_refl eq_refl updated (JString "E123")
           (JString "d111111abcdef8.cloudfront.net")
           (JArray (map JString DOMAIN_NAMES)) (JString "InProgress")
           "abc" "");
    reflexivity.
Defined.


(** ** Exit status 1 after an update that went through *)

Lemma subscript_lookup_error v k e :
  subscript v k = Raise e -> is_lookup_error e = true.
Proof.
  destruct v; simpl; try (intros [= <-]; reflexivity).
  destruct (dict_get k members); intros [= <-]. reflexivity.
Qed.

Lemma path_lookup_error ks :
  forall v e, path v ks = Raise e -> is_lookup_error e = true.
Proof.
  induction ks as [|k ks IH]; simpl; intros v e; [discriminate|].
  destruct (subscript v k) eqn:Hs; simpl.
  - apply IH.
  - intros [= <-]. eapply subscript_lookup_error; eauto.
Qed.

Lemma report_fields_lookup_error (updated : json) (e : exn) :
  report_fields updated = Raise e -> is_lookup_error e = true.
Proof.
  unfold report_fields.
  repeat match goal with
         | |- and_then ?r _ = Raise _ -> _ =>
             let H := fresh "H" in
             destruct r eqn:H; cbn [and_then];
             [| intros [= <-];
                first [ now apply path_lookup_error in H
                      | destruct a2; now inversion H ] ]
         end.
  discriminate.
Qed.

Lemma update_distribution_not_reported (w : World) (i t : string)
    (st : state) (out : captured) (stderr : string) (e : exn) :
  as_argv (update_args (JString i) (JString t)) = Ok (update_argv i t) ->
  spawn w (calls st) (update_argv i t) (disk st) = Exited 0 out stderr ->
  report_error out = Some e ->
  exists st',
    update_distribution w (JString i) (JString t) st
      = (Raise (SystemExit 1), st') /\
    List.last (printed st') [] = Text "❌ Error: " :: str_exn e.
Proof.
  intros Hargs Hspawn Hout.
  unfold update_distribution, subprocess_run.
  cbv [try_except bind print json_loads ret raise sys_exit].
  cbn [printed calls disk]. rewrite Hargs, Hspawn. cbn [Z.eqb].
  destruct out as [updated | raw]; cbn [report_error] in Hout.
  - destruct (report_fields updated) as [fields|e'] eqn:Hf; [discriminate|].
    injection Hout as ->.
    match goal with
    | |- context [report updated ?s] =>
        destruct (report_incomplete updated s e Hf) as [st' Hst']
    end.
    rewrite Hst'. apply report_fields_lookup_error in Hf.
    destruct e; try discriminate; cbn [is_Exception printed];
      (eexists; split; [reflexivity | apply last_last]).
  - injection Hout as <-. cbn [is_Exception printed].
    eexists; split; [reflexivity | apply last_last].
Qed.

(** C10.  Exit status 1 does not tell that the remote update was not
    applied: when the update command is the last command of a run, exits
    with status 0 and answers with something that is not JSON or from which
    one of the values of the report cannot be read (['Distribution'] or any
    of the fields the report takes from it), the run ends with
    [sys.exit(1)] from the generic handler, which prints the exception of
    [json.loads] or of the first value that could not be read after
    "Error:". *)
Theorem exit_1_after_applied_update (w : World) (prev : list call) (c : call)
    (out : captured) (stderr : string) (e : exn) :
  calls (snd (run w)) = prev ++ [c] ->
  is_update c ->
  spawn w prev (argv c) (seen c) = Exited 0 out stderr ->
  report_error out = Some e ->
  fst (run w) = Raise (SystemExit 1) /\
  exit_code (fst (run w)) = 1 /\
  List.last (printed (snd (run w))) [] = Text "❌ Error: " :: str_exn e.
Proof.
  intros Hcalls' Hup Hspawn Hout.
  assert (Hin : In c (calls (snd (run w)))).
  { rewrite Hcalls'. apply in_or_app. right. now left. }
  destruct (update_call_submitted w c Hin Hup).
  rewrite Hcalls in Hcalls'. apply app_inj_tail in Hcalls' as [Hprev _].
  subst prev c. cbn [argv seen] in Hspawn. rewrite <- Hdisk3 in Hspawn.
  destruct (update_distribution_not_reported w i t st3 out stderr e
              Hargs Hspawn Hout) as (st' & Hrun' & Hlast).
  rewrite Hrun, Hrun'. cbn [fst snd exit_code]. auto.
Qed.

Lemma exit_1_after_applied_update_witness :
  calls (snd (run w_null_certificate)) =
    [Call list_argv ∅; Call (get_argv "E123") ∅] ++ [scenario_update] /\
  is_update scenario_update /\
  spawn w_null_certificate [Call list_argv ∅; Call (get_argv "E123") ∅]
        (argv scenario_update) (seen scenario_update)
    = Exited 0 (Decodes null_certificate) "" /\
  report_error (Decodes null_certificate)
    = Some (AttributeError JNull "split") /\
  fst (run w_null_certificate) = Raise (SystemExit 1) /\
  exit_code (fst (run w_null_certificate)) = 1 /\
  List.last (printed (snd (run w_null_certificate))) [] =
    Text "❌ Error: " :: str_exn (AttributeError JNull "split").
Proof.
  assert (Hcalls : calls (snd (run w_null_certificate)) =
            [Call list_argv ∅; Call (get_argv "E123") ∅] ++ [scenario_update]).
  { vm_compute. reflexivity. }
  assert (Hup : is_update scenario_update) by reflexivity.
  assert (Hspawn : spawn w_null_certificate
                     [Call list_argv ∅; Call (get_argv "E123") ∅]
                     (argv scenario_update) (seen scenario_update)
                   = Exited 0 (Decodes null_certificate) "").
  { reflexivity. }
  assert (Hout : report_error (Decodes null_certificate)
                 = Some (AttributeError JNull "split")).
  { reflexivity. }
  split; [exact Hcalls | split; [exact Hup | split; [exact Hspawn |
    split; [exact Hout |]]]].
  exact (exit_1_after_applied_update w_null_certificate _ _ _ _ _
           Hcalls Hup Hspawn Hout).
Defined.

(** The same where the answer has no ['Distribution'] at all, and where the
    answer of the update cannot be decoded as text: the command has run,
    and the run ends with exit status 1 from the generic handler. *)
Example missing_distribution_exits_1 :
  exit_code (fst (run w_unreported)) = 1 /\
  map argv (calls (snd (run w_unreported)))
    = [list_argv; get_argv "E123"; update_argv "E123" "E_OLD"] /\
  List.last (printed (snd (run w_unreported))) [] =
    [Text "❌ Error: "; Repr (JString "Distribution")].
Proof. repeat split; vm_compute; reflexivity. Qed.

Example garbled_update_exits_1 :
  exit_code (fst (run w_garbled_update)) = 1 /\
  map argv (calls (snd (run w_garbled_update)))
    = [list_argv; get_argv "E123"; update_argv "E123" "E_OLD"] /\
  List.last (printed (snd (run w_garbled_update))) [] =
    [Text "❌ Error: "; Diag (UnicodeDecodeError "invalid start byte")].
Proof. repeat split; vm_compute; reflexivity. Qed.
